(** * A shallow embedding of the product-catalogue service ([app.py])

    The five request handlers of [app.py] are embedded as functions in a
    state-and-exception monad over an explicit world: the [Product] table,
    the blob container behind [blob_service_client], and a trace of every
    call that leaves the process (storage and database).  Failures of the
    two remote services are inputs of a handler ([Faults]).

    Text is UTF-8: a Python [str] is the Rocq [string] of its UTF-8
    bytes, so an ASCII character is one [ascii] and any other character
    is two to four of them.  [str.strip()] is modelled on every
    character Python takes for white space.  What depends on tables that
    change with the Python or database release is not modelled but taken
    as a parameter ([float], [secure_filename]) or kept to ASCII text in
    the statements (the database's letter case). *)

From Stdlib Require Import ZArith String Ascii List Lia.
From stdpp Require Import base option gmap strings list pretty.

Local Open Scope Z_scope.

(** ** Python text primitives *)

Module Py.

(** [str.isspace] on one ASCII character: TAB..CR, FS..US and the blank. *)
Definition isspace (c : ascii) : bool :=
  let n := nat_of_ascii c in
  ((9 <=? n) && (n <=? 13) || (28 <=? n) && (n <=? 32))%nat.

(** The C-locale space test the number parser of CPython uses
    ([Py_ISSPACE]): TAB..CR and the blank only. *)
Definition c_isspace (c : ascii) : bool :=
  let n := nat_of_ascii c in
  ((9 <=? n) && (n <=? 13) || (n =? 32))%nat.

Definition isdigit (c : ascii) : bool :=
  let n := nat_of_ascii c in ((48 <=? n) && (n <=? 57))%nat.

Definition isupper (c : ascii) : bool :=
  let n := nat_of_ascii c in ((65 <=? n) && (n <=? 90))%nat.

Definition lower_char (c : ascii) : ascii :=
  if isupper c then ascii_of_nat (nat_of_ascii c + 32) else c.

(** [s.lower()] *)
Fixpoint lower (s : string) : string :=
  match s with
  | EmptyString => EmptyString
  | String c s' => String (lower_char c) (lower s')
  end.

Fixpoint lstrip_by (sp : ascii -> bool) (s : string) : string :=
  match s with
  | EmptyString => EmptyString
  | String c s' => if sp c then lstrip_by sp s' else s
  end.

Fixpoint rstrip_by (sp : ascii -> bool) (s : string) : string :=
  match s with
  | EmptyString => EmptyString
  | String c s' =>
      match rstrip_by sp s' with
      | EmptyString => if sp c then EmptyString else String c EmptyString
      | r => String c r
      end
  end.

(** The white-space characters outside ASCII, as UTF-8: U+0085 and
    U+00A0 take two bytes; U+1680, U+2000..U+200A, U+2028, U+2029,
    U+202F, U+205F and U+3000 take three. *)
Definition space2 (c1 c2 : ascii) : bool :=
  let n1 := nat_of_ascii c1 in
  let n2 := nat_of_ascii c2 in
  ((n1 =? 194) && ((n2 =? 133) || (n2 =? 160)))%nat.

Definition space3 (c1 c2 c3 : ascii) : bool :=
  let n1 := nat_of_ascii c1 in
  let n2 := nat_of_ascii c2 in
  let n3 := nat_of_ascii c3 in
  ((n1 =? 225) && (n2 =? 154) && (n3 =? 128)
   || (n1 =? 226) && (n2 =? 128)
      && ((128 <=? n3) && (n3 <=? 138) || (n3 =? 168) || (n3 =? 169) || (n3 =? 175))
   || (n1 =? 226) && (n2 =? 129) && (n3 =? 159)
   || (n1 =? 227) && (n2 =? 128) && (n3 =? 128))%nat.

(** [s.isspace()], the empty text included: every character of [s] is
    white space. *)
Fixpoint all_space (s : string) : bool :=
  match s with
  | EmptyString => true
  | String c1 r1 =>
      if isspace c1 then all_space r1
      else match r1 with
           | String c2 r2 =>
               if space2 c1 c2 then all_space r2
               else match r2 with
                    | String c3 r3 => space3 c1 c2 c3 && all_space r3
                    | EmptyString => false
                    end
           | EmptyString => false
           end
  end.

(** [s.lstrip()] *)
Fixpoint lstrip (s : string) : string :=
  match s with
  | EmptyString => EmptyString
  | String c1 r1 =>
      if isspace c1 then lstrip r1
      else match r1 with
           | String c2 r2 =>
               if space2 c1 c2 then lstrip r2
               else match r2 with
                    | String c3 r3 => if space3 c1 c2 c3 then lstrip r3 else s
                    | EmptyString => s
                    end
           | EmptyString => s
           end
  end.

(** [s.rstrip()]: what is left of [s] once the white space that ends it
    is cut. *)
Fixpoint rstrip (s : string) : string :=
  match s with
  | EmptyString => EmptyString
  | String c s' => if all_space s then EmptyString else String c (rstrip s')
  end.

(** [s.strip()] *)
Definition strip (s : string) : string := rstrip (lstrip s).


(** [s.startswith(prefix)] *)
Fixpoint startswith (prefix s : string) : bool :=
  match prefix, s with
  | EmptyString, _ => true
  | String _ _, EmptyString => false
  | String a prefix', String b s' => Ascii.eqb a b && startswith prefix' s'
  end.

(** [needle in s] *)
Fixpoint contains (needle s : string) : bool :=
  startswith needle s
  || match s with
     | EmptyString => false
     | String _ s' => contains needle s'
     end.


(** Truth value of a [str] or [None]: [None] and [""] are false. *)
Definition truthy (o : option string) : bool :=
  match o with
  | None => false
  | Some EmptyString => false
  | Some (String _ _) => true
  end.

(** [s.split(sep)] for a one-character separator: never the empty list. *)
Fixpoint split (sep : ascii) (s : string) : list string :=
  match s with
  | EmptyString => [EmptyString]
  | String c s' =>
      if Ascii.eqb c sep then EmptyString :: split sep s'
      else match split sep s' with
           | [] => [String c EmptyString]
           | w :: ws => String c w :: ws
           end
  end.

(** [xs[-1]] on a list that [split] returned. *)
Definition last_item (xs : list string) : string := List.last xs EmptyString.

(** *** [float(text)] on ASCII text

    The views take [float] as a parameter; this is what it does to ASCII
    text, and what the examples run with.  The value keeps the decimal
    that was read, sign, digits and power of ten; rounding to a binary64
    is not modelled, the handlers only carry the price around. *)
Inductive pyfloat : Type :=
  | FNan
  | FInf (negative : bool)
  | FDec (negative : bool) (digits : N) (exp10 : Z).

(** Underscores may only stand between two digits; they are dropped
    before the number is read. *)
Fixpoint drop_underscores (prev : ascii) (s : string) : option string :=
  match s with
  | EmptyString => if Ascii.eqb prev "_" then None else Some EmptyString
  | String c s' =>
      if Ascii.eqb c "_" then
        if isdigit prev then drop_underscores c s' else None
      else if Ascii.eqb prev "_" && negb (isdigit c) then None
      else String c <$> drop_underscores c s'
  end.

Fixpoint span_digits (s : string) : string * string :=
  match s with
  | String c s' =>
      if isdigit c then let '(d, r) := span_digits s' in (String c d, r)
      else (EmptyString, s)
  | EmptyString => (EmptyString, EmptyString)
  end.

Fixpoint digits_value (acc : N) (s : string) : N :=
  match s with
  | EmptyString => acc
  | String c s' => digits_value (10 * acc + N.of_nat (nat_of_ascii c - 48))%N s'
  end.

Definition read_sign (s : string) : bool * string :=
  match s with
  | String "-" r => (true, r)
  | String "+" r => (false, r)
  | _ => (false, s)
  end.

Definition is_exp_mark (c : ascii) : bool := Ascii.eqb c "e" || Ascii.eqb c "E".

(** sign, digits with an optional point, optional exponent; the whole
    text must be used up. *)
Definition read_decimal (s : string) : option pyfloat :=
  let '(neg, s1) := read_sign s in
  let '(ip, s2) := span_digits s1 in
  let '(fp, s3) := match s2 with
                   | String "." r => span_digits r
                   | _ => (EmptyString, s2)
                   end in
  let mant := digits_value 0 (ip +:+ fp) in
  let scale := - Z.of_nat (String.length fp) in
  match ip +:+ fp with
  | EmptyString => None
  | _ =>
      match s3 with
      | EmptyString => Some (FDec neg mant scale)
      | String c r =>
          if is_exp_mark c then
            let '(eneg, r1) := read_sign r in
            match span_digits r1 with
            | (String d ds, EmptyString) =>
                let e := Z.of_N (digits_value 0 (String d ds)) in
                Some (FDec neg mant (scale + (if eneg then - e else e)))
            | _ => None
            end
          else None
      end
  end.

Definition read_inf_nan (s : string) : option pyfloat :=
  let '(neg, r) := read_sign s in
  let w := lower r in
  if String.eqb w "inf" || String.eqb w "infinity" then Some (FInf neg)
  else if String.eqb w "nan" then Some FNan
  else None.

(** [float(text)] for ASCII [text]: [None] stands for the [ValueError]
    it raises. *)
Definition float (text : string) : option pyfloat :=
  match drop_underscores "000" text with
  | None => None
  | Some t =>
      let body := rstrip_by c_isspace (lstrip_by c_isspace t) in
      match read_decimal body with
      | Some v => Some v
      | None => read_inf_nan body
      end
  end.

End Py.

(** ** Werkzeug: [secure_filename] on a POSIX host

    The handlers are stated for any sanitiser (a section variable below);
    this is the one the examples run with, on ASCII file names.  Bytes
    outside ASCII are dropped (the ASCII letters that NFKD would make of
    some of them are not kept), the path separator becomes a blank, the
    words are joined by underscores, everything outside [A-Za-z0-9_.-]
    is removed and leading and trailing dots and underscores are
    stripped. *)
Module Werkzeug.

Definition is_ascii (c : ascii) : bool := (nat_of_ascii c <? 128)%nat.

Definition keeps (c : ascii) : bool :=
  let n := nat_of_ascii c in
  (((48 <=? n) && (n <=? 57)) || ((65 <=? n) && (n <=? 90))
   || ((97 <=? n) && (n <=? 122)))%nat
  || Ascii.eqb c "_" || Ascii.eqb c "." || Ascii.eqb c "-".

Definition dot_or_underscore (c : ascii) : bool :=
  Ascii.eqb c "." || Ascii.eqb c "_".

Fixpoint filter_chars (keep : ascii -> bool) (s : string) : string :=
  match s with
  | EmptyString => EmptyString
  | String c s' =>
      if keep c then String c (filter_chars keep s') else filter_chars keep s'
  end.

Fixpoint map_chars (f : ascii -> ascii) (s : string) : string :=
  match s with
  | EmptyString => EmptyString
  | String c s' => String (f c) (map_chars f s')
  end.

(** ["_".join(s.split())]: runs of white space become one underscore,
    white space at either end disappears. *)
Fixpoint join_words (started pending : bool) (s : string) : string :=
  match s with
  | EmptyString => EmptyString
  | String c s' =>
      if Py.isspace c then join_words started started s'
      else if pending then String "_" (String c (join_words true false s'))
      else String c (join_words true false s')
  end.

Definition secure_filename (filename : string) : string :=
  let ascii_only := filter_chars is_ascii filename in
  let no_sep := map_chars (fun c => if Ascii.eqb c "/" then " "%char else c) ascii_only in
  let joined := join_words false false no_sep in
  let cleaned := filter_chars keeps joined in
  Py.rstrip_by dot_or_underscore (Py.lstrip_by dot_or_underscore cleaned).

End Werkzeug.

(** ** SQL [LIKE]

    [Product.name.ilike(p)] is rendered as [lower(name) LIKE lower(p)].
    [%] stands for any run of characters and [_] for any one character;
    every other character stands for itself.  The bracket classes of
    Transact-SQL are not modelled: statements below that depend on how a
    pattern matches are restricted to patterns without an opening
    bracket.  How the database folds and compares letters outside ASCII
    depends on its collation, which the application does not set: [lower]
    folds A to Z, [_] counts bytes, and a statement that says which rows
    match is restricted to ASCII names and patterns. *)
Module Sql.

Fixpoint like (pattern : string) : string -> bool :=
  match pattern with
  | EmptyString => fun s => match s with EmptyString => true | _ => false end
  | String pc rest =>
      if Ascii.eqb pc "%" then
        fix any_run (s : string) : bool :=
          like rest s
          || match s with
             | EmptyString => false
             | String _ s' => any_run s'
             end
      else if Ascii.eqb pc "_" then
        fun s => match s with
                 | EmptyString => false
                 | String _ s' => like rest s'
                 end
      else
        fun s => match s with
                 | EmptyString => false
                 | String c s' => Ascii.eqb pc c && like rest s'
                 end
  end.

Definition ilike (value pattern : string) : bool :=
  like (Py.lower pattern) (Py.lower value).



End Sql.

(** ** The world of the service *)

(** What a handler can see raised.  [str(e)] is kept symbolic. *)
Inductive Exn : Type :=
  | ValueError_float (text : string)
      (** [float(text)] could not read a number *)
  | ValueError_blob_name
      (** [get_blob_client] was given an empty container or blob name *)
  | ResourceNotFoundError (blob : string)
      (** [delete_blob] on a blob the container does not hold *)
  | ResourceExistsError (blob : string)
      (** [upload_blob] without [overwrite] on a blob that exists *)
  | StorageFailure (msg : string)
      (** the storage service could not be reached or refused the call *)
  | DatabaseFailure (msg : string).
      (** the database could not be reached or refused the statement *)

#[local] Set Warnings "-register-all".

Inductive json : Type :=
  | JNull
  | JInt (z : Z)
  | JFloat (x : Py.pyfloat)
  | JStr (s : string)
  | JStrOf (e : Exn)                       (** the text [str(e)] *)
  | JList (items : list json)
  | JDict (fields : list (string * json)).

(** A view's return value: body and status ([jsonify(..)] alone is 200). *)
Definition Response : Type := json * Z.

(** A row of the [product] table. *)
Record Product : Type := {
  id : Z;
  name : string;
  price : Py.pyfloat;
  description : option string;
  image_url : option string
}.

(** [Product(name=.., price=.., description=.., image_url=..)] before the
    database has given it an id. *)
Record NewProduct : Type := {
  new_name : string;
  new_price : Py.pyfloat;
  new_description : option string;
  new_image_url : option string
}.

Record Database : Type := {
  rows : list Product;
  next_id : Z
}.

(** An uploaded file of the multipart form. *)
Record FileStorage : Type := {
  filename : string;
  stream : string
}.

(** [bool(file)] of a [FileStorage] is [bool(file.filename)]. *)
Definition file_truthy (file : option FileStorage) : bool :=
  match file with
  | None => false
  | Some f => Py.truthy (Some (filename f))
  end.

(** [blob_service_client]: the account it was built for and the blobs the
    account holds, by container and blob name. *)
Record BlobServiceClient : Type := {
  account_name : string;
  blobs : gmap (string * string) string
}.

Record BlobClient : Type := {
  container_name : string;
  blob_name : string
}.

(** Calls that leave the process. *)
Inductive Event : Type :=
  | StorageUpload (container blob : string)
  | StorageDelete (container blob : string)
  | DbSelectAll
  | DbSelectById (key : Z)
  | DbSelectLike (pattern : string)
  | DbDeleteAll
  | DbCommit.

Definition is_storage_event (ev : Event) : bool :=
  match ev with
  | StorageUpload _ _ | StorageDelete _ _ => true
  | _ => false
  end.

Definition is_db_event (ev : Event) : bool := negb (is_storage_event ev).

Record World : Type := {
  db : Database;
  blob_service_client : BlobServiceClient;
  trace : list Event
}.

(** What goes wrong outside the process while one request is served:
    [Some msg] makes the call of that kind fail with that message. *)
Record Faults : Type := {
  storage_fault : option string;   (** [upload_blob], [delete_blob] *)
  db_select_fault : option string; (** [.all()], [.get(..)] *)
  db_delete_fault : option string; (** the bulk [query.delete()] *)
  db_commit_fault : option string  (** [db.session.commit()] *)
}.

Definition no_faults : Faults :=
  {| storage_fault := None; db_select_fault := None;
     db_delete_fault := None; db_commit_fault := None |}.

(** The request object of the view that runs. *)
Record Request : Type := {
  form : gmap string string;
  files : gmap string FileStorage;
  args : gmap string string
}.

(** ** The monad of a view: state, exceptions, read-only faults *)

(** What [db.session] has staged and not yet committed. *)
Inductive Staged : Type :=
  | StagedAdd (p : NewProduct)
  | StagedDelete (p : Product)
  | StagedDeleteAll.

Record State : Type := {
  world : World;
  session : list Staged
}.

Inductive Outcome (A : Type) : Type :=
  | Return (a : A)
  | Raise (e : Exn).
Arguments Return {A} a.
Arguments Raise {A} e.

Definition M (A : Type) : Type := Faults -> State -> State * Outcome A.

Definition ret {A} (a : A) : M A := fun _ st => (st, Return a).

Definition raise {A} (e : Exn) : M A := fun _ st => (st, Raise e).

Definition bind {A B} (m : M A) (k : A -> M B) : M B :=
  fun f st =>
    match m f st with
    | (st', Return a) => k a f st'
    | (st', Raise e) => (st', Raise e)
    end.

(** [try: body  except Exception as e: handler e] *)
Definition try_except {A} (body : M A) (handler : Exn -> M A) : M A :=
  fun f st =>
    match body f st with
    | (st', Return a) => (st', Return a)
    | (st', Raise e) => handler e f st'
    end.

Declare Scope view_scope.
Delimit Scope view_scope with view.
Notation "x <- m ;; k" := (bind m (fun x => k))
  (at level 100, m at next level, right associativity) : view_scope.
Notation "m ;; k" := (bind m (fun _ => k))
  (at level 100, right associativity) : view_scope.
Local Open Scope view_scope.

Definition faults : M Faults := fun f st => (st, Return f).

Definition get_world : M World := fun _ st => (st, Return (world st)).

Definition put_world (w : World) : M unit :=
  fun _ st => ({| world := w; session := session st |}, Return tt).

Definition emit (ev : Event) : M unit :=
  w <- get_world ;;
  put_world {| db := db w; blob_service_client := blob_service_client w;
               trace := trace w ++ [ev] |}.

Definition set_blobs (b : gmap (string * string) string) : M unit :=
  w <- get_world ;;
  put_world {| db := db w;
               blob_service_client :=
                 {| account_name := account_name (blob_service_client w);
                    blobs := b |};
               trace := trace w |}.

Definition stage (op : Staged) : M unit :=
  fun _ st => ({| world := world st; session := session st ++ [op] |}, Return tt).

(** ** The libraries the views call *)

(** [x] where Python has already tested [x] to be a non-empty [str]. *)
Definition text_of (x : option string) : string := default EmptyString x.

(** [float(x)] in a view; [float] reads a text or refuses it. *)
Definition float_of (float : string -> option Py.pyfloat) (x : option string)
  : M Py.pyfloat :=
  match float (text_of x) with
  | Some v => ret v
  | None => raise (ValueError_float (text_of x))
  end.

(** [blob_service_client.get_blob_client(container=.., blob=..)]: builds
    the client locally and refuses an empty name. *)
Definition get_blob_client (container blob : string) : M BlobClient :=
  if Py.truthy (Some container) && Py.truthy (Some blob)
  then ret {| container_name := container; blob_name := blob |}
  else raise ValueError_blob_name.

Definition blob_key (bc : BlobClient) : string * string :=
  (container_name bc, blob_name bc).

(** [blob_client.upload_blob(data, overwrite=..)] *)
Definition upload_blob (bc : BlobClient) (data : FileStorage) (overwrite : bool)
  : M unit :=
  emit (StorageUpload (container_name bc) (blob_name bc)) ;;
  f <- faults ;;
  match storage_fault f with
  | Some msg => raise (StorageFailure msg)
  | None =>
      w <- get_world ;;
      let held := blobs (blob_service_client w) in
      match held !! blob_key bc with
      | Some _ =>
          if overwrite then set_blobs (<[blob_key bc := stream data]> held)
          else raise (ResourceExistsError (blob_name bc))
      | None => set_blobs (<[blob_key bc := stream data]> held)
      end
  end.

(** [blob_client.delete_blob()]: a blob that is not there is an error. *)
Definition delete_blob (bc : BlobClient) : M unit :=
  emit (StorageDelete (container_name bc) (blob_name bc)) ;;
  f <- faults ;;
  match storage_fault f with
  | Some msg => raise (StorageFailure msg)
  | None =>
      w <- get_world ;;
      let held := blobs (blob_service_client w) in
      match held !! blob_key bc with
      | Some _ => set_blobs (delete (blob_key bc) held)
      | None => raise (ResourceNotFoundError (blob_name bc))
      end
  end.

(** A select; each view selects before it stages anything, so it reads
    the committed rows. *)
Definition select (ev : Event) : M (list Product) :=
  emit ev ;;
  f <- faults ;;
  match db_select_fault f with
  | Some msg => raise (DatabaseFailure msg)
  | None => w <- get_world ;; ret (rows (db w))
  end.

(** [Product.query.all()] *)
Definition query_all : M (list Product) := select DbSelectAll.

(** [Product.query.get(key)] *)
Definition query_get (key : Z) : M (option Product) :=
  found <- select (DbSelectById key) ;;
  ret (List.find (fun p => id p =? key) found).

(** [Product.query.filter(Product.name.ilike(pattern)).all()] *)
Definition query_filter_name_ilike (pattern : string) : M (list Product) :=
  found <- select (DbSelectLike pattern) ;;
  ret (List.filter (fun p => Sql.ilike (name p) pattern) found).

(** [db.session.query(Product).delete()]: runs inside the transaction and
    returns the number of rows it matched. *)
Definition query_delete : M Z :=
  emit DbDeleteAll ;;
  f <- faults ;;
  match db_delete_fault f with
  | Some msg => raise (DatabaseFailure msg)
  | None =>
      w <- get_world ;;
      stage StagedDeleteAll ;;
      ret (Z.of_nat (length (rows (db w))))
  end.

Definition session_add (p : NewProduct) : M unit := stage (StagedAdd p).

Definition session_delete (p : Product) : M unit := stage (StagedDelete p).

Definition apply_staged (d : Database) (op : Staged) : Database :=
  match op with
  | StagedAdd p =>
      {| rows := rows d ++ [ {| id := next_id d; name := new_name p;
                                price := new_price p;
                                description := new_description p;
                                image_url := new_image_url p |} ];
         next_id := next_id d + 1 |}
  | StagedDelete p =>
      {| rows := List.filter (fun r => negb (id r =? id p)) (rows d);
         next_id := next_id d |}
  | StagedDeleteAll => {| rows := []; next_id := next_id d |}
  end.

(** [db.session.commit()]: all that was staged, or nothing. *)
Definition session_commit : M unit :=
  emit DbCommit ;;
  fun f st =>
    match db_commit_fault f with
    | Some msg => (st, Raise (DatabaseFailure msg))
    | None =>
        let w := world st in
        ({| world := {| db := fold_left apply_staged (session st) (db w);
                        blob_service_client := blob_service_client w;
                        trace := trace w |};
            session := [] |}, Return tt)
    end.

(** ** The views of [app.py] *)

Definition AZURE_CONTAINER_NAME : string := "product-images".

Definition jsonify (j : json) : json := j.

(** The dictionary both listings build for a row. *)
Definition product_json (p : Product) : json :=
  JDict [ ("id", JInt (id p));
          ("name", JStr (name p));
          ("price", JFloat (price p));
          ("description", from_option JStr JNull (description p));
          ("image_url", if Py.truthy (image_url p)
                        then from_option JStr JNull (image_url p)
                        else JStr "") ].

(** [d.get(key)] on a JSON object; [None] when the key is omitted. *)
Definition field (key : string) (j : json) : option json :=
  match j with
  | JDict fields => snd <$> List.find (fun kv => String.eqb (fst kv) key) fields
  | _ => None
  end.

Section Views.

(** [werkzeug.utils.secure_filename] *)
Variable secure_filename : string -> string.

(** The built-in [float] on a [str]: the number read, or [None] for the
    [ValueError] it raises. *)
Variable float : string -> option Py.pyfloat.

Definition add_product (request : Request) : M Response :=
  try_except
    (let name := form request !! "name" in
     let price := form request !! "price" in
     let description := form request !! "description" in
     let file := files request !! "image" in
     if negb (Py.truthy name) || negb (Py.truthy price) then
       ret (jsonify (JDict [("error", JStr "Name and price are required")]), 400)
     else
       image_url <-
         (if file_truthy file then
            match file with
            | Some upload =>
                let filename := secure_filename (filename upload) in
                blob_client <- get_blob_client AZURE_CONTAINER_NAME filename ;;
                upload_blob blob_client upload true ;;
                w <- get_world ;;
                ret (Some ("https://" +:+ account_name (blob_service_client w)
                           +:+ ".blob.core.windows.net/" +:+ AZURE_CONTAINER_NAME
                           +:+ "/" +:+ filename))
            | None => ret None
            end
          else ret None) ;;
       price_value <- float_of float price ;;
       session_add {| new_name := text_of name; new_price := price_value;
                      new_description := description;
                      new_image_url := image_url |} ;;
       session_commit ;;
       ret (jsonify (JDict [("message", JStr "Product added successfully")]), 201))
    (fun e =>
       ret (jsonify (JDict [("error", JStr "Failed to add product");
                            ("details", JStrOf e)]), 500)).

Definition get_products : M Response :=
  try_except
    (products <- query_all ;;
     ret (jsonify (JList (List.map product_json products)), 200))
    (fun e =>
       ret (jsonify (JDict [("error", JStr "Failed to fetch products");
                            ("details", JStrOf e)]), 500)).

Definition delete_product (product_id : Z) : M Response :=
  try_except
    (product <- query_get product_id ;;
     match product with
     | None => ret (jsonify (JDict [("error", JStr "Product not found")]), 404)
     | Some product =>
         (if Py.truthy (image_url product) then
            let blob_name :=
              Py.last_item (Py.split "/" (text_of (image_url product))) in
            blob_client <- get_blob_client AZURE_CONTAINER_NAME blob_name ;;
            delete_blob blob_client
          else ret tt) ;;
         session_delete product ;;
         session_commit ;;
         ret (jsonify (JDict [("message", JStr "Product deleted successfully")]), 200)
     end)
    (fun e =>
       ret (jsonify (JDict [("error", JStr "Failed to delete product");
                            ("details", JStrOf e)]), 500)).

Definition delete_all_products : M Response :=
  try_except
    (num_deleted <- query_delete ;;
     session_commit ;;
     ret (jsonify (JDict [("message",
                           JStr ("Deleted " +:+ pretty num_deleted +:+ " products"))]),
          200))
    (fun e =>
       ret (jsonify (JDict [("error", JStr "Failed to delete all products");
                            ("details", JStrOf e)]), 500)).

Definition search_products (request : Request) : M Response :=
  try_except
    (let query := Py.strip (default EmptyString (args request !! "q")) in
     if negb (Py.truthy (Some query)) then get_products
     else
       products <- query_filter_name_ilike ("%" +:+ query +:+ "%") ;;
       ret (jsonify (JList (List.map product_json products)), 200))
    (fun e =>
       ret (jsonify (JDict [("error", JStr "Failed to search products");
                            ("details", JStrOf e)]), 500)).

End Views.

(** One request served on a world: the session starts empty and is thrown
    away afterwards; an exception no view caught is Flask's own 500. *)
Definition serve (view : M Response) (f : Faults) (w : World) : Response * World :=
  match view f {| world := w; session := [] |} with
  | (st, Return r) => (r, world st)
  | (st, Raise _) => ((JStr "Internal Server Error", 500), world st)
  end.

Definition status_of (x : Response * World) : Z := snd (fst x).
Definition body_of (x : Response * World) : json := fst (fst x).
Definition world_after (x : Response * World) : World := snd x.


(** The row [Product.query.get(key)] finds. *)
Definition row_with_id (key : Z) (w : World) : option Product :=
  List.find (fun p => id p =? key) (rows (db w)).

(** The blob a row points at: the last segment of its URL. *)
Definition blob_of (p : Product) : string :=
  Py.last_item (Py.split "/" (text_of (image_url p))).

(** What a request added to the trace. *)
Definition issued (before after : World) : list Event :=
  drop (length (trace before)) (trace after).

(** The URL [add_product] stores for an uploaded image. *)
Definition uploaded_url (account filename : string) : string :=
  "https://" +:+ account +:+ ".blob.core.windows.net/" +:+ AZURE_CONTAINER_NAME
  +:+ "/" +:+ filename.

Fixpoint no_slash (s : string) : bool :=
  match s with
  | EmptyString => true
  | String c s' => negb (Ascii.eqb c "/") && no_slash s'
  end.

(** The row a commit makes of a staged [Product(..)]. *)
Definition inserted_row (d : Database) (p : NewProduct) : Product :=
  {| id := next_id d; name := new_name p; price := new_price p;
     description := new_description p; image_url := new_image_url p |}.

(** Ids are handed out once: no two rows share one, and every row's id
    is below the next one to be given. *)
Definition ids_in_order (d : Database) : Prop :=
  NoDup (List.map id (rows d))
  /\ Forall (fun p => id p < next_id d) (rows d).

(** The routes of the application: method and path, with what the view
    reads of the request.  The converter of [<int:product_id>] hands the
    view ids from 0 up; the view is stated for any integer. *)
Inductive Endpoint : Type :=
  | POST_products (request : Request)
  | GET_products
  | DELETE_products_id (product_id : Z)
  | DELETE_products_delete_all
  | GET_products_search (request : Request).

Definition view_of (secure_filename : string -> string)
    (float : string -> option Py.pyfloat) (e : Endpoint) : M Response :=
  match e with
  | POST_products request => add_product secure_filename float request
  | GET_products => get_products
  | DELETE_products_id product_id => delete_product product_id
  | DELETE_products_delete_all => delete_all_products
  | GET_products_search request => search_products request
  end.

(** The answers a view builds in its [except] branch. *)
Definition is_failure_body (j : json) : Prop :=
  exists summary e, j = JDict [("error", JStr summary); ("details", JStrOf e)].

Fixpoint all_percent (s : string) : bool :=
  match s with
  | EmptyString => true
  | String c s' => Ascii.eqb c "%" && all_percent s'
  end.

(** ** Start-up: the environment and the database URI *)

(** [urllib.parse.quote_plus] with its default arguments, on the bytes of
    the text: letters, digits and [_.-~] stay, the blank becomes [+],
    every other byte becomes [%XX]. *)
Module Urllib.

Definition always_safe (c : ascii) : bool :=
  let n := nat_of_ascii c in
  (((48 <=? n) && (n <=? 57)) || ((65 <=? n) && (n <=? 90))
   || ((97 <=? n) && (n <=? 122)))%nat
  || Ascii.eqb c "_" || Ascii.eqb c "." || Ascii.eqb c "-" || Ascii.eqb c "~".

Definition hex_digit (n : nat) : ascii :=
  if (n <? 10)%nat then ascii_of_nat (48 + n) else ascii_of_nat (55 + n).

Definition quote_char (c : ascii) : string :=
  if always_safe c then String c EmptyString
  else if Ascii.eqb c " " then "+"
  else let n := nat_of_ascii c in
       String "%" (String (hex_digit (n / 16)) (String (hex_digit (n mod 16)) EmptyString)).

Fixpoint quote_plus (s : string) : string :=
  match s with
  | EmptyString => EmptyString
  | String c s' => quote_char c +:+ quote_plus s'
  end.

(** What a quoted text is made of. *)
Definition is_quoted_char (c : ascii) : bool :=
  always_safe c || Ascii.eqb c "+" || Ascii.eqb c "%".

Fixpoint all_quoted (s : string) : bool :=
  match s with
  | EmptyString => true
  | String c s' => is_quoted_char c && all_quoted s'
  end.

End Urllib.

Module Boot.

(** The [ValueError] raised at import when a variable is not set. *)
Inductive StartupError : Type :=
  | Missing (variable : string).

Record Config : Type := {
  AZURE_STORAGE_CONNECTION_STRING : string;
  DB_PASSWORD : string;
  SQLALCHEMY_DATABASE_URI : string
}.

Definition db_params (password : string) : string :=
  Urllib.quote_plus
    ("Driver={ODBC Driver 18 for SQL Server};"
     +:+ "Server=tcp:productcatalouge.database.windows.net,1433;"
     +:+ "Database=product_catalouge_A2;"
     +:+ "Uid=adminn;Pwd=" +:+ password +:+ ";"
     +:+ "Encrypt=yes;"
     +:+ "TrustServerCertificate=no;"
     +:+ "Connection Timeout=30;").

(** The module body down to [app.config]: [environ] is what [os.getenv]
    reads. *)
Definition configure (environ : gmap string string) : StartupError + Config :=
  let connection_string := environ !! "AZURE_STORAGE_CONNECTION_STRING" in
  let password := environ !! "DB_PASSWORD" in
  if negb (Py.truthy connection_string) then
    inl (Missing "AZURE_STORAGE_CONNECTION_STRING")
  else if negb (Py.truthy password) then
    inl (Missing "DB_PASSWORD")
  else
    inr {| AZURE_STORAGE_CONNECTION_STRING := text_of connection_string;
           DB_PASSWORD := text_of password;
           SQLALCHEMY_DATABASE_URI :=
             "mssql+pyodbc:///?odbc_connect=" +:+ db_params (text_of password) |}.

End Boot.

(** ** Worlds and requests the examples run on *)

Module Sample.

Definition empty_world : World :=
  {| db := {| rows := []; next_id := 1 |};
     blob_service_client := {| account_name := "catalog"; blobs := ∅ |};
     trace := [] |}.

Definition mug_png : FileStorage := {| filename := "red mug.png"; stream := "PNG" |}.

Definition post (fields : list (string * string)) (image : option FileStorage)
  : Request :=
  {| form := list_to_map fields;
     files := from_option (fun f => {["image" := f]}) ∅ image;
     args := ∅ |}.

Definition search (q : option string) : Request :=
  {| form := ∅; files := ∅;
     args := from_option (fun s => {["q" := s]}) ∅ q |}.

Definition red_mug : Product :=
  {| id := 1; name := "Red Mug"; price := Py.FDec false 125 (-1);
     description := None;
     image_url :=
       Some "https://catalog.blob.core.windows.net/product-images/red_mug.png" |}.

Definition red_hat : Product :=
  {| id := 2; name := "red hat"; price := Py.FDec false 8 0;
     description := Some "wool"; image_url := None |}.

Definition blue_cup : Product :=
  {| id := 3; name := "Blue Cup"; price := Py.FDec false 3 0;
     description := None; image_url := None |}.

Definition with_rows (ps : list Product) (held : gmap (string * string) string)
  : World :=
  {| db := {| rows := ps; next_id := 4 |};
     blob_service_client := {| account_name := "catalog"; blobs := held |};
     trace := [] |}.

Definition catalog : World :=
  with_rows [red_mug; red_hat; blue_cup]
            {[ ("product-images", "red_mug.png") := "PNG" ]}.

(** The row of the mug is there, its blob is not. *)
Definition catalog_blob_gone : World := with_rows [red_mug; red_hat; blue_cup] ∅.

Definition storage_down : Faults :=
  {| storage_fault := Some "connection reset"; db_select_fault := None;
     db_delete_fault := None; db_commit_fault := None |}.

End Sample.

(** A second stock: two rows that point at one blob. *)
Module Shop.

Definition poster_url : string :=
  "https://catalog.blob.core.windows.net/product-images/poster.png".

Definition poster_a3 : Product :=
  {| id := 1; name := "Poster A3"; price := Py.FDec false 9 0;
     description := None; image_url := Some poster_url |}.

Definition poster_a4 : Product :=
  {| id := 2; name := "Poster A4"; price := Py.FDec false 6 0;
     description := None; image_url := Some poster_url |}.

Definition sticker : Product :=
  {| id := 3; name := "Sticker"; price := Py.FDec false 1 0;
     description := Some "round"; image_url := None |}.

Definition stock : World :=
  {| db := {| rows := [poster_a3; poster_a4; sticker]; next_id := 4 |};
     blob_service_client :=
       {| account_name := "catalog";
          blobs := {[ ("product-images", "poster.png") := "PNG";
                      ("invoices", "2024.pdf") := "PDF" ]} |};
     trace := [] |}.

Definition database_down : Faults :=
  {| storage_fault := None; db_select_fault := None;
     db_delete_fault := None; db_commit_fault := Some "deadlock" |}.

(** U+00A0, the no-break space, and U+2003, the em space, as UTF-8. *)
Definition nbsp : string := String "194" (String "160" EmptyString).

Definition em_space : string :=
  String "226" (String "128" (String "131" EmptyString)).

Definition environ : gmap string string :=
  {[ "AZURE_STORAGE_CONNECTION_STRING" := "AccountName=catalog;AccountKey=k";
     "DB_PASSWORD" := "p&ss w=rd;#1" ]}.

End Shop.

(** ** Running a view by hand *)

Ltac run_view :=
  cbv beta iota zeta delta
    [serve status_of body_of world_after try_except bind ret raise faults
     get_world put_world emit set_blobs stage session_add session_delete
     session_commit select query_all query_get query_filter_name_ilike
     query_delete float_of jsonify];
  simpl.

(** Closes the conjuncts a run leaves: equalities by computation, lists
    of events by going through them. *)
Ltac settle :=
  repeat split; intros; auto;
  try congruence;
  try (repeat constructor; congruence).

(** Runs [add_product] up to the end of a successful upload of a file
    stored as [stored_as]. *)
Ltac upload_goes_through stored_as Hname Hprice Hfile Hsupplied Hsafe Hstorage :=
  unfold add_product; cbv zeta;
  rewrite Hname, Hprice, Hfile, Hsupplied;
  run_view; unfold get_blob_client; simpl;
  destruct stored_as as [|c rest]; [congruence|];
  simpl; unfold upload_blob, blob_key; run_view;
  rewrite Hstorage; simpl.

(** Runs [delete_product] up to the blob client of a row that has an
    image. *)
Ltac row_with_image_found Hselect Hrow Himage :=
  unfold row_with_id, blob_of in *;
  unfold delete_product; run_view;
  rewrite Hselect; simpl; rewrite Hrow, Himage;
  unfold get_blob_client; simpl;
  destruct (Py.last_item _) as [|c rest]; [congruence|];
  simpl; unfold delete_blob, blob_key; run_view.

(** Splits a run on the innermost test that is still open. *)
Ltac branch :=
  match goal with
  | |- context [match ?x with _ => _ end] =>
      lazymatch x with
      | context [match _ with _ => _ end] => fail
      | _ => destruct x eqn:?
      end
  end.

Ltac all_branches := repeat (simpl; branch); simpl.

Ltac open_views :=
  unfold view_of, add_product, delete_product, delete_all_products,
    search_products, get_products, get_blob_client, upload_blob, delete_blob,
    blob_key;
  run_view.

Lemma issued_app (w : World) (evs : list Event) (d : Database) (b : BlobServiceClient) :
  issued w {| db := d; blob_service_client := b; trace := trace w ++ evs |} = evs.
Proof. unfold issued; simpl. apply drop_app_length. Qed.

Lemma issued_nil (w : World) : issued w w = [].
Proof. unfold issued. apply drop_all. Qed.

(** ** The primitives on the inputs of the specification's examples *)

Example float_reads :
  Py.float "12.50" = Some (Py.FDec false 1250 (-2))
  /\ Py.float " 1_000.5e-2 " = Some (Py.FDec false 10005 (-3))
  /\ Py.float "-Inf" = Some (Py.FInf true)
  /\ Py.float "abc" = None
  /\ Py.float "12,5" = None
  /\ Py.float "1__0" = None
  /\ Py.float "" = None.
Proof. vm_compute. repeat split. Qed.

Example strip_and_split :
  Py.strip "  red mug " = "red mug"
  /\ Py.strip "   " = ""
  /\ Py.split "/" "https://catalog.blob.core.windows.net/product-images/red_mug.png"
     = ["https:"; ""; "catalog.blob.core.windows.net"; "product-images"; "red_mug.png"]
  /\ Py.last_item (Py.split "/" "product-images/") = "".
Proof. vm_compute. repeat split. Qed.

Example strip_unicode_blanks :
  Py.strip (Shop.nbsp +:+ " red" +:+ Shop.em_space +:+ Shop.nbsp) = "red"
  /\ Py.strip (Shop.em_space +:+ Shop.nbsp) = ""
  /\ Py.all_space (Shop.nbsp +:+ " " +:+ Shop.em_space) = true
  /\ Py.all_space (Shop.nbsp +:+ "x") = false
  /\ Py.strip ("a" +:+ Shop.nbsp +:+ "b") = "a" +:+ Shop.nbsp +:+ "b".
Proof. vm_compute. repeat split. Qed.

Example secure_filename_cleans :
  Werkzeug.secure_filename "My cool movie.mov" = "My_cool_movie.mov"
  /\ Werkzeug.secure_filename "../../../etc/passwd" = "etc_passwd"
  /\ Werkzeug.secure_filename ".." = "".
Proof. vm_compute. repeat split. Qed.

Example ilike_red :
  Sql.ilike "Red Mug" "%red%" = true
  /\ Sql.ilike "red hat" "%red%" = true
  /\ Sql.ilike "Blue Cup" "%red%" = false
  /\ Sql.ilike "abc" "%a_c%" = true.
Proof. vm_compute. repeat split. Qed.

(** ** Creating a product *)

Section AddProduct.

Variable secure_filename : string -> string.
Variable float : string -> option Py.pyfloat.

(** C1, as the code has it: a request whose name or price is absent or
    empty is answered 400 and leaves the world as it was, not one call to
    the storage or the database is issued, whether or not an image came
    with it.  A price that is there but that [float] refuses is not
    caught by that test: the request ends in 500, and no row is inserted
    and no database call is issued.  [float] is the parser the program
    runs with, whatever texts it reads. *)
Theorem add_product_validation (request : Request) (f : Faults) (w : World) :
  (Py.truthy (form request !! "name") = false
   \/ Py.truthy (form request !! "price") = false ->
   serve (add_product secure_filename float request) f w
   = ((JDict [("error", JStr "Name and price are required")], 400), w))
  /\
  (Py.truthy (form request !! "name") = true ->
   Py.truthy (form request !! "price") = true ->
   float (text_of (form request !! "price")) = None ->
   let out := serve (add_product secure_filename float request) f w in
   status_of out = 500
   /\ db (world_after out) = db w
   /\ Forall (fun ev => is_storage_event ev = true) (issued w (world_after out))).
Proof.
  split.
  - intros Hmissing. unfold add_product. run_view.
    assert (Hguard : negb (Py.truthy (form request !! "name"))
                     || negb (Py.truthy (form request !! "price")) = true).
    { destruct Hmissing as [-> | ->]; simpl; auto using orb_true_r. }
    rewrite Hguard. simpl. reflexivity.
  - intros Hname Hprice Hfloat. unfold add_product. run_view.
    rewrite Hname, Hprice. simpl.
    destruct (file_truthy (files request !! "image")) eqn:Hfile.
    + destruct (files request !! "image") as [upload|]; [|discriminate Hfile].
      unfold get_blob_client. simpl.
      destruct (secure_filename (filename upload)) as [|c rest] eqn:Hsafe; simpl.
      * rewrite issued_nil. auto.
      * unfold upload_blob. run_view.
        destruct (storage_fault f) as [msg|]; simpl.
        { rewrite issued_app. repeat split; auto. }
        destruct (blobs (blob_service_client w) !! _); simpl;
          rewrite Hfloat; simpl; rewrite issued_app; repeat split; auto.
    + simpl. rewrite Hfloat. simpl. rewrite issued_nil. auto.
Qed.

(** C3: name and price are there, an image is supplied, and the upload
    fails: the answer is 500 with the storage error in [details], the
    upload is the only call that was issued, and table and container are
    as they were; the insert comes after the upload in the view and is
    never reached.  (A file name that sanitises to the empty string never
    gets as far as an upload, hence the premise on it.) *)
Theorem add_product_upload_failure
    (request : Request) (f : Faults) (w : World) (upload : FileStorage) (msg : string) :
  Py.truthy (form request !! "name") = true ->
  Py.truthy (form request !! "price") = true ->
  files request !! "image" = Some upload ->
  file_truthy (Some upload) = true ->
  secure_filename (filename upload) <> EmptyString ->
  storage_fault f = Some msg ->
  serve (add_product secure_filename float request) f w
  = ((JDict [("error", JStr "Failed to add product");
             ("details", JStrOf (StorageFailure msg))], 500),
     {| db := db w;
        blob_service_client := blob_service_client w;
        trace := trace w ++ [StorageUpload AZURE_CONTAINER_NAME
                                           (secure_filename (filename upload))] |}).
Proof.
  intros Hname Hprice Hfile Hsupplied Hsafe Hfault.
  unfold add_product. cbv zeta. rewrite Hname, Hprice, Hfile, Hsupplied.
  run_view. unfold get_blob_client. simpl.
  destruct (secure_filename (filename upload)) as [|c rest]; [congruence|].
  simpl. unfold upload_blob. run_view. rewrite Hfault. reflexivity.
Qed.

End AddProduct.

Lemma add_product_validation_witness :
  serve (add_product Werkzeug.secure_filename Py.float
           (Sample.post [("price", "12.5")] (Some Sample.mug_png)))
        no_faults Sample.empty_world
  = ((JDict [("error", JStr "Name and price are required")], 400), Sample.empty_world)
  /\
  (let out := serve (add_product Werkzeug.secure_filename Py.float
                       (Sample.post [("name", "Mug"); ("price", "12,5")] None))
                    no_faults Sample.empty_world in
   status_of out = 500
   /\ db (world_after out) = db Sample.empty_world
   /\ Forall (fun ev => is_storage_event ev = true)
             (issued Sample.empty_world (world_after out))).
Proof.
  split.
  - apply (proj1 (add_product_validation Werkzeug.secure_filename Py.float _ _ _)).
    left. vm_compute. reflexivity.
  - apply (proj2 (add_product_validation Werkzeug.secure_filename Py.float _ _ _));
      vm_compute; reflexivity.
Defined.

(** C1 fails on a price that is not a number: with a name, the price
    ["abc"] and an image, the answer is 500, not 400, and the image has
    been uploaded by the time [float] refuses the price. *)
Lemma add_product_bad_price_counterexample :
  let request := Sample.post [("name", "Mug"); ("price", "abc")] (Some Sample.mug_png) in
  let out := serve (add_product Werkzeug.secure_filename Py.float request)
                   no_faults Sample.empty_world in
  Py.float "abc" = None
  /\ fst out = (JDict [("error", JStr "Failed to add product");
                       ("details", JStrOf (ValueError_float "abc"))], 500)
  /\ status_of out <> 400
  /\ trace (world_after out) = [StorageUpload "product-images" "red_mug.png"]
  /\ blobs (blob_service_client (world_after out)) !! ("product-images", "red_mug.png")
     = Some "PNG"
  /\ rows (db (world_after out)) = [].
Proof. vm_compute. repeat split; congruence. Qed.

Lemma add_product_upload_failure_witness :
  serve (add_product Werkzeug.secure_filename Py.float
           (Sample.post [("name", "Mug"); ("price", "12.5")] (Some Sample.mug_png)))
        Sample.storage_down Sample.empty_world
  = ((JDict [("error", JStr "Failed to add product");
             ("details", JStrOf (StorageFailure "connection reset"))], 500),
     {| db := db Sample.empty_world;
        blob_service_client := blob_service_client Sample.empty_world;
        trace := trace Sample.empty_world
                 ++ [StorageUpload AZURE_CONTAINER_NAME
                       (Werkzeug.secure_filename (filename Sample.mug_png))] |}).
Proof.
  apply (add_product_upload_failure Werkzeug.secure_filename Py.float _ _ _ Sample.mug_png
           "connection reset"); vm_compute; (reflexivity || congruence).
Defined.

(** ** Deleting one product *)

(** C9: an id that no row has.  Table and container are as they were and
    the lookup is the only call that was issued, so no blob deletion was
    attempted; when the lookup itself went through the answer is 404. *)
Theorem delete_product_unknown_id (product_id : Z) (f : Faults) (w : World) :
  (forall p, In p (rows (db w)) -> id p <> product_id) ->
  let out := serve (delete_product product_id) f w in
  world_after out
  = {| db := db w; blob_service_client := blob_service_client w;
       trace := trace w ++ [DbSelectById product_id] |}
  /\ (db_select_fault f = None ->
      fst out = (JDict [("error", JStr "Product not found")], 404)).
Proof.
  intros Hfresh.
  assert (Hfind : List.find (fun p => id p =? product_id) (rows (db w)) = None).
  { destruct (List.find _ _) as [p|] eqn:Hp; [|reflexivity].
    apply find_some in Hp as [Hin Heq]. apply Z.eqb_eq in Heq.
    exfalso. exact (Hfresh p Hin Heq). }
  unfold delete_product. run_view.
  destruct (db_select_fault f) as [msg|]; simpl.
  - split; [reflexivity | discriminate].
  - rewrite Hfind. simpl. split; [reflexivity | reflexivity].
Qed.

Lemma delete_product_unknown_id_witness :
  let out := serve (delete_product 7) no_faults Sample.catalog in
  world_after out
  = {| db := db Sample.catalog;
       blob_service_client := blob_service_client Sample.catalog;
       trace := trace Sample.catalog ++ [DbSelectById 7] |}
  /\ fst out = (JDict [("error", JStr "Product not found")], 404).
Proof.
  destruct (delete_product_unknown_id 7 no_faults Sample.catalog) as [Hworld Hanswer].
  - intros p Hin. simpl in Hin.
    destruct Hin as [<- | [<- | [<- | []]]]; simpl; lia.
  - split; [exact Hworld | apply Hanswer; reflexivity].
Defined.

(** C4: the row is there, it has an image URL, and the storage fails
    while the blob is deleted (anything but "not found", which the
    container decides).  The answer is 500 with the storage error in
    [details]; lookup and blob deletion are the only calls issued, no
    commit follows, and the table is as it was. *)
Theorem delete_product_storage_failure
    (product_id : Z) (f : Faults) (w : World) (p : Product) (msg : string) :
  db_select_fault f = None ->
  row_with_id product_id w = Some p ->
  Py.truthy (image_url p) = true ->
  blob_of p <> EmptyString ->
  storage_fault f = Some msg ->
  serve (delete_product product_id) f w
  = ((JDict [("error", JStr "Failed to delete product");
             ("details", JStrOf (StorageFailure msg))], 500),
     {| db := db w; blob_service_client := blob_service_client w;
        trace := trace w ++ [DbSelectById product_id]
                         ++ [StorageDelete AZURE_CONTAINER_NAME (blob_of p)] |}).
Proof.
  unfold row_with_id, blob_of. intros Hselect Hrow Himage Hblob Hfault.
  unfold delete_product. run_view.
  rewrite Hselect. simpl. rewrite Hrow, Himage.
  unfold get_blob_client. simpl.
  destruct (Py.last_item _) as [|c rest]; [congruence|]. simpl.
  unfold delete_blob. run_view. rewrite Hfault.
  rewrite <- app_assoc. reflexivity.
Qed.

Lemma delete_product_storage_failure_witness :
  serve (delete_product 1) Sample.storage_down Sample.catalog
  = ((JDict [("error", JStr "Failed to delete product");
             ("details", JStrOf (StorageFailure "connection reset"))], 500),
     {| db := db Sample.catalog;
        blob_service_client := blob_service_client Sample.catalog;
        trace := trace Sample.catalog ++ [DbSelectById 1]
                 ++ [StorageDelete AZURE_CONTAINER_NAME (blob_of Sample.red_mug)] |}).
Proof.
  apply (delete_product_storage_failure 1 Sample.storage_down Sample.catalog
           Sample.red_mug "connection reset");
    vm_compute; (reflexivity || congruence).
Defined.

(** C2: the tolerance the claim asks for is not in the code.  The row is
    there and its URL names a blob the container does not hold: "not
    found" is raised by [delete_blob] like any other storage error and is
    caught by the same handler, so the answer is 500, no commit is issued
    and the row stays, where the comment in the view says the image is
    deleted "if exists". *)
Theorem delete_product_blob_missing
    (product_id : Z) (f : Faults) (w : World) (p : Product) :
  db_select_fault f = None ->
  row_with_id product_id w = Some p ->
  Py.truthy (image_url p) = true ->
  blobs (blob_service_client w) !! (AZURE_CONTAINER_NAME, blob_of p) = None ->
  let out := serve (delete_product product_id) f w in
  status_of out = 500
  /\ db (world_after out) = db w
  /\ blobs (blob_service_client (world_after out)) = blobs (blob_service_client w)
  /\ Forall (fun ev => ev <> DbCommit) (issued w (world_after out))
  /\ (storage_fault f = None -> blob_of p <> EmptyString ->
      body_of out = JDict [("error", JStr "Failed to delete product");
                           ("details", JStrOf (ResourceNotFoundError (blob_of p)))]).
Proof.
  unfold row_with_id, blob_of. intros Hselect Hrow Himage Hgone.
  unfold delete_product. run_view.
  rewrite Hselect. simpl. rewrite Hrow, Himage.
  unfold get_blob_client. simpl.
  destruct (Py.last_item _) as [|c rest] eqn:Hlast; simpl.
  - rewrite issued_app. settle.
  - unfold delete_blob, blob_key. run_view.
    destruct (storage_fault f) as [msg|]; simpl.
    + rewrite <- app_assoc, issued_app. settle.
    + rewrite Hgone. simpl. rewrite <- app_assoc, issued_app. settle.
Qed.

Lemma delete_product_blob_missing_witness :
  let out := serve (delete_product 1) no_faults Sample.catalog_blob_gone in
  status_of out = 500
  /\ db (world_after out) = db Sample.catalog_blob_gone
  /\ blobs (blob_service_client (world_after out))
     = blobs (blob_service_client Sample.catalog_blob_gone)
  /\ Forall (fun ev => ev <> DbCommit) (issued Sample.catalog_blob_gone (world_after out))
  /\ body_of out
     = JDict [("error", JStr "Failed to delete product");
              ("details", JStrOf (ResourceNotFoundError (blob_of Sample.red_mug)))].
Proof.
  destruct (delete_product_blob_missing 1 no_faults Sample.catalog_blob_gone
              Sample.red_mug) as (Hstatus & Hdb & Hblobs & Hcalls & Hbody);
    [vm_compute; reflexivity ..|].
  refine (conj Hstatus (conj Hdb (conj Hblobs (conj Hcalls (Hbody _ _)))));
    vm_compute; congruence.
Defined.

(** C2 at a table whose blob is gone: the mug's row points at
    [red_mug.png], the container is empty, and deleting product 1 answers
    500 and keeps the row. *)
Lemma delete_product_blob_missing_counterexample :
  let out := serve (delete_product 1) no_faults Sample.catalog_blob_gone in
  row_with_id 1 Sample.catalog_blob_gone = Some Sample.red_mug
  /\ blobs (blob_service_client Sample.catalog_blob_gone)
       !! ("product-images", "red_mug.png") = None
  /\ fst out = (JDict [("error", JStr "Failed to delete product");
                       ("details", JStrOf (ResourceNotFoundError "red_mug.png"))], 500)
  /\ status_of out <> 200
  /\ rows (db (world_after out)) = [Sample.red_mug; Sample.red_hat; Sample.blue_cup]
  /\ trace (world_after out)
     = [DbSelectById 1; StorageDelete "product-images" "red_mug.png"].
Proof. vm_compute. repeat split; congruence. Qed.

(** C2 through the routes alone: two products are created with an image
    called [poster.png], so both rows point at one blob.  Deleting the
    first succeeds and takes the blob; deleting the second answers 500,
    now and on every later try, and its row stays. *)
Lemma delete_product_after_shared_upload :
  let poster := {| filename := "poster.png"; stream := "PNG" |} in
  let create n :=
    add_product Werkzeug.secure_filename Py.float
                (Sample.post [("name", n); ("price", "9")] (Some poster)) in
  let w1 := world_after (serve (create "Poster A3") no_faults Sample.empty_world) in
  let w2 := world_after (serve (create "Poster A4") no_faults w1) in
  let first := serve (delete_product 1) no_faults w2 in
  let second := serve (delete_product 2) no_faults (world_after first) in
  let again := serve (delete_product 2) no_faults (world_after second) in
  List.map id (rows (db w2)) = [1; 2]
  /\ status_of first = 200
  /\ fst second = (JDict [("error", JStr "Failed to delete product");
                          ("details", JStrOf (ResourceNotFoundError "poster.png"))], 500)
  /\ fst again = fst second
  /\ List.map id (rows (db (world_after again))) = [2].
Proof. vm_compute. repeat split. Qed.

(** ** Deleting every product *)

(** C7: whatever fails, the bulk delete leaves the storage account as it
    was and issues no storage call; when the database accepts the delete
    and the commit, the table is empty afterwards and the message carries
    the number of rows the table had. *)
Theorem delete_all_products_rows_only (f : Faults) (w : World) :
  let out := serve delete_all_products f w in
  blob_service_client (world_after out) = blob_service_client w
  /\ Forall (fun ev => is_storage_event ev = false) (issued w (world_after out))
  /\ (db_delete_fault f = None -> db_commit_fault f = None ->
      fst out = (JDict [("message",
                         JStr ("Deleted " +:+ pretty (Z.of_nat (length (rows (db w))))
                               +:+ " products"))], 200)
      /\ rows (db (world_after out)) = []).
Proof.
  unfold delete_all_products. run_view.
  destruct (db_delete_fault f) as [msg|]; simpl.
  - rewrite issued_app. settle.
  - destruct (db_commit_fault f) as [msg|]; simpl;
      rewrite <- app_assoc, issued_app; settle.
Qed.

Lemma delete_all_products_rows_only_witness :
  let out := serve delete_all_products no_faults Sample.catalog in
  blob_service_client (world_after out) = blob_service_client Sample.catalog
  /\ Forall (fun ev => is_storage_event ev = false) (issued Sample.catalog (world_after out))
  /\ fst out = (JDict [("message", JStr "Deleted 3 products")], 200)
  /\ rows (db (world_after out)) = [].
Proof.
  destruct (delete_all_products_rows_only no_faults Sample.catalog)
    as (Hstorage & Hcalls & Hok).
  destruct Hok as [Hanswer Hrows]; [reflexivity | reflexivity |].
  exact (conj Hstorage (conj Hcalls (conj Hanswer Hrows))).
Defined.

(** ** Listing and searching *)

(** [get_products] catches what it raises. *)
Lemma get_products_returns (f : Faults) (st : State) :
  exists st' r, get_products f st = (st', Return r).
Proof.
  unfold get_products. run_view.
  destruct (db_select_fault f); simpl; eauto.
Qed.

Lemma lstrip_all_space (n : nat) (q : string) :
  (String.length q <= n)%nat -> Py.all_space q = true -> Py.lstrip q = EmptyString.
Proof.
  revert q. induction n as [|n IH]; intros q Hlen Hq.
  - destruct q; [reflexivity | simpl in Hlen; lia].
  - destruct q as [|c1 r1]; [reflexivity|].
    simpl in Hlen, Hq |- *.
    destruct (Py.isspace c1); [apply IH; [lia | exact Hq]|].
    destruct r1 as [|c2 r2]; [discriminate|].
    simpl in Hlen.
    destruct (Py.space2 c1 c2); [apply IH; [lia | exact Hq]|].
    destruct r2 as [|c3 r3]; [discriminate|].
    simpl in Hlen.
    apply andb_true_iff in Hq as [-> Hq]. apply IH; [lia | exact Hq].
Qed.

Lemma strip_all_space (q : string) : Py.all_space q = true -> Py.strip q = EmptyString.
Proof.
  intros Hq. unfold Py.strip.
  rewrite (lstrip_all_space (String.length q) q (le_n _) Hq). reflexivity.
Qed.

(** A query that is empty once stripped hands the request to
    [get_products]. *)
Lemma search_products_empty_query (request : Request) (f : Faults) (w : World) :
  Py.strip (default EmptyString (args request !! "q")) = EmptyString ->
  serve (search_products request) f w = serve get_products f w.
Proof.
  intros Hq. unfold search_products, serve, try_except. rewrite Hq. simpl.
  destruct (get_products_returns f {| world := w; session := [] |}) as (st' & r & ->).
  reflexivity.
Qed.

(** C6: with [q] absent or empty, the search answers what the listing
    answers on the same world under the same faults, and leaves the same
    world behind. *)
Theorem search_without_query_is_listing (request : Request) (f : Faults) (w : World) :
  args request !! "q" = None \/ args request !! "q" = Some EmptyString ->
  serve (search_products request) f w = serve get_products f w.
Proof.
  intros [Hq | Hq]; apply search_products_empty_query; rewrite Hq; reflexivity.
Qed.

Lemma search_without_query_is_listing_witness :
  serve (search_products (Sample.search None)) no_faults Sample.catalog
  = serve get_products no_faults Sample.catalog
  /\ serve (search_products (Sample.search (Some ""))) no_faults Sample.catalog
     = serve get_products no_faults Sample.catalog.
Proof.
  split; apply search_without_query_is_listing; [left | right]; reflexivity.
Defined.

(** C10: a query of white space only, ASCII or not, is stripped to
    nothing, and the search answers what the listing answers. *)
Theorem search_blank_query_is_listing
    (request : Request) (f : Faults) (w : World) (q : string) :
  args request !! "q" = Some q ->
  Py.all_space q = true ->
  serve (search_products request) f w = serve get_products f w.
Proof.
  intros Hq Hblank. apply search_products_empty_query.
  rewrite Hq. simpl. apply strip_all_space, Hblank.
Qed.

Lemma search_blank_query_is_listing_witness :
  serve (search_products (Sample.search (Some (" " +:+ Shop.nbsp +:+ Shop.em_space))))
        no_faults Sample.catalog
  = serve get_products no_faults Sample.catalog.
Proof.
  apply (search_blank_query_is_listing _ _ _ (" " +:+ Shop.nbsp +:+ Shop.em_space));
    reflexivity.
Defined.

Lemma product_json_image_url (p : Product) :
  field "image_url" (product_json p) = Some (JStr (text_of (image_url p))).
Proof.
  unfold field, product_json. simpl.
  destruct (image_url p) as [[|c u]|]; reflexivity.
Qed.

(** C8: when the listing or the search answers with a list, every item
    is the object of a row of the table, and in it [image_url] is there
    and is a string: the row's URL, and the empty string for a row that
    has none. *)
Theorem listed_image_url_is_a_string
    (request : Request) (f : Faults) (w : World) (view : M Response)
    (items : list json) :
  view = get_products \/ view = search_products request ->
  body_of (serve view f w) = JList items ->
  exists ps,
    items = List.map product_json ps
    /\ (forall p, In p ps -> In p (rows (db w)))
    /\ (forall p, In p ps ->
        exists s, field "image_url" (product_json p) = Some (JStr s)
                  /\ (image_url p = None -> s = EmptyString)).
Proof.
  assert (Hlist : forall its, body_of (serve get_products f w) = JList its ->
            its = List.map product_json (rows (db w))).
  { intros its. unfold get_products. run_view.
    destruct (db_select_fault f); simpl; congruence. }
  assert (Hfields : forall ps : list Product, forall p, In p ps ->
            exists s, field "image_url" (product_json p) = Some (JStr s)
                      /\ (image_url p = None -> s = EmptyString)).
  { intros ps p _. exists (text_of (image_url p)). split.
    - apply product_json_image_url.
    - intros ->. reflexivity. }
  intros [-> | ->] Hbody.
  - exists (rows (db w)). split; [auto | split; [auto | apply Hfields]].
  - destruct (Py.strip (default EmptyString (args request !! "q"))) as [|c q] eqn:Hq.
    + rewrite search_products_empty_query in Hbody by exact Hq.
      exists (rows (db w)). split; [auto | split; [auto | apply Hfields]].
    + revert Hbody. unfold search_products. rewrite Hq. run_view.
      destruct (db_select_fault f); simpl; [discriminate|].
      intros [= <-]. eexists. split; [reflexivity|]. split; [|apply Hfields].
      intros p Hin. apply filter_In in Hin. tauto.
Qed.

Lemma listed_image_url_is_a_string_witness :
  exists ps,
    [product_json Sample.red_mug; product_json Sample.red_hat]
    = List.map product_json ps
    /\ (forall p, In p ps -> In p (rows (db Sample.catalog)))
    /\ (forall p, In p ps ->
        exists s, field "image_url" (product_json p) = Some (JStr s)
                  /\ (image_url p = None -> s = EmptyString)).
Proof.
  apply (listed_image_url_is_a_string (Sample.search (Some "red")) no_faults
           Sample.catalog (search_products (Sample.search (Some "red")))).
  - right. reflexivity.
  - vm_compute. reflexivity.
Defined.

(** *** Substrings and [LIKE] *)

Lemma startswith_spec (prefix s : string) :
  Py.startswith prefix s = true <-> exists rest, s = prefix +:+ rest.
Proof.
  revert s. induction prefix as [|a prefix IH]; intros s; simpl.
  - split; [intros _; exists s; reflexivity | reflexivity].
  - destruct s as [|b s]; simpl.
    + split; [discriminate | intros [rest Hrest]; discriminate].
    + rewrite andb_true_iff, Ascii.eqb_eq, IH. split.
      * intros [-> [rest ->]]. exists rest. reflexivity.
      * intros [rest [= -> ->]]. split; [reflexivity | exists rest; reflexivity].
Qed.

(** [Py.contains] is the substring test. *)
Lemma contains_spec (needle s : string) :
  Py.contains needle s = true <-> exists before after, s = before +:+ needle +:+ after.
Proof.
  induction s as [|c s IH]; simpl; rewrite orb_true_iff, startswith_spec.
  - split.
    + intros [[rest Hrest] | Hfalse]; [|discriminate].
      exists EmptyString, rest. exact Hrest.
    + intros ([|b before] & after & Heq); [|discriminate].
      left. exists after. exact Heq.
  - rewrite IH. split.
    + intros [[rest Hrest] | (before & after & ->)].
      * exists EmptyString, rest. exact Hrest.
      * exists (String c before), after. reflexivity.
    + intros ([|b before] & after & Heq).
      * left. exists after. exact Heq.
      * right. injection Heq as _ ->. exists before, after. reflexivity.
Qed.

Lemma lower_app (a b : string) : Py.lower (a +:+ b) = Py.lower a +:+ Py.lower b.
Proof. induction a as [|c a IH]; simpl; [reflexivity | rewrite IH; reflexivity]. Qed.



Lemma like_percent (s : string) : Sql.like "%" s = true.
Proof.
  induction s as [|c s IH]; [reflexivity|].
  simpl in *. exact IH.
Qed.

Lemma like_any_run (rest s : string) :
  Sql.like (String "%" rest) s
  = Sql.like rest s
    || match s with
       | EmptyString => false
       | String _ s' => Sql.like (String "%" rest) s'
       end.
Proof. destruct s; reflexivity. Qed.








(** ** Splitting a URL at its slashes *)

Lemma split_not_empty (sep : ascii) (s : string) : Py.split sep s <> [].
Proof.
  destruct s as [|c s]; simpl; [discriminate|].
  destruct (Ascii.eqb c sep); [discriminate|].
  destruct (Py.split sep s); discriminate.
Qed.

(** [(a + sep + s).split(sep) == a.split(sep) + s.split(sep)] *)
Lemma split_app_sep (sep : ascii) (a s : string) :
  Py.split sep (a +:+ String sep s) = Py.split sep a ++ Py.split sep s.
Proof.
  induction a as [|c a IH]; simpl.
  - rewrite Ascii.eqb_refl. reflexivity.
  - destruct (Ascii.eqb c sep); rewrite IH; [reflexivity|].
    pose proof (split_not_empty sep a) as Hne.
    destruct (Py.split sep a) as [|w ws]; [congruence | reflexivity].
Qed.

Lemma append_assoc (a b c : string) : a +:+ b +:+ c = (a +:+ b) +:+ c.
Proof.
  induction a as [|x a IH]; [reflexivity|].
  change (String x (a +:+ b +:+ c) = String x ((a +:+ b) +:+ c)).
  rewrite IH. reflexivity.
Qed.

Lemma split_no_slash (s : string) : no_slash s = true -> Py.split "/" s = [s].
Proof.
  induction s as [|c s IH]; simpl; [reflexivity|].
  intros Hs. apply andb_true_iff in Hs as [Hc Hs].
  apply negb_true_iff in Hc. rewrite Hc, IH by exact Hs. reflexivity.
Qed.

Lemma last_segment (a s : string) :
  no_slash s = true -> Py.last_item (Py.split "/" (a +:+ "/" +:+ s)) = s.
Proof.
  intros Hs. change (a +:+ "/" +:+ s) with (a +:+ String "/" s).
  rewrite split_app_sep, (split_no_slash s Hs).
  unfold Py.last_item. apply last_last.
Qed.

Lemma uploaded_url_last_segment (account filename : string) :
  no_slash filename = true ->
  Py.last_item (Py.split "/" (uploaded_url account filename)) = filename.
Proof.
  intros Hs. unfold uploaded_url.
  rewrite 3!append_assoc. apply (last_segment _ filename Hs).
Qed.

Lemma uploaded_url_truthy (account filename : string) :
  Py.truthy (Some (uploaded_url account filename)) = true.
Proof. reflexivity. Qed.

Lemma find_appended (k : Z) (ps : list Product) (p : Product) :
  (forall r, In r ps -> id r <> k) -> id p = k ->
  List.find (fun r => id r =? k) (ps ++ [p]) = Some p.
Proof.
  intros Hfresh Hid. induction ps as [|r ps IH]; simpl.
  - rewrite Hid, Z.eqb_refl. reflexivity.
  - destruct (id r =? k) eqn:Hr.
    + apply Z.eqb_eq in Hr. exfalso. apply (Hfresh r); [left; reflexivity | exact Hr].
    + apply IH. intros r' Hin. apply Hfresh. right. exact Hin.
Qed.

Lemma filter_appended (k : Z) (ps : list Product) (p : Product) :
  (forall r, In r ps -> id r <> k) -> id p = k ->
  List.filter (fun r => negb (id r =? k)) (ps ++ [p]) = ps.
Proof.
  intros Hfresh Hid. induction ps as [|r ps IH]; simpl.
  - rewrite Hid, Z.eqb_refl. reflexivity.
  - destruct (id r =? k) eqn:Hr.
    + apply Z.eqb_eq in Hr. exfalso. apply (Hfresh r); [left; reflexivity | exact Hr].
    + simpl. f_equal. apply IH. intros r' Hin. apply Hfresh. right. exact Hin.
Qed.

(** ** Creating a product: what is stored *)

Section AddProductStores.

Variable secure_filename : string -> string.
Variable float : string -> option Py.pyfloat.

(** X1: a request with a name, a price that [float] reads and no image
    (none sent, or one with an empty file name) is answered 201 when the
    commit goes through.  One row is appended to the table, with the next
    id, the name as sent, the parsed price, the description as sent and
    no image URL; the commit is the only call issued and the storage is
    not touched. *)
Theorem add_product_without_image
    (request : Request) (f : Faults) (w : World) (v : Py.pyfloat) :
  Py.truthy (form request !! "name") = true ->
  Py.truthy (form request !! "price") = true ->
  float (text_of (form request !! "price")) = Some v ->
  file_truthy (files request !! "image") = false ->
  db_commit_fault f = None ->
  serve (add_product secure_filename float request) f w
  = ((JDict [("message", JStr "Product added successfully")], 201),
     {| db := {| rows := rows (db w)
                         ++ [ {| id := next_id (db w);
                                 name := text_of (form request !! "name");
                                 price := v;
                                 description := form request !! "description";
                                 image_url := None |} ];
                 next_id := next_id (db w) + 1 |};
        blob_service_client := blob_service_client w;
        trace := trace w ++ [DbCommit] |}).
Proof.
  intros Hname Hprice Hfloat Hfile Hcommit.
  unfold add_product. cbv zeta. rewrite Hname, Hprice, Hfile.
  run_view. rewrite Hfloat. simpl. rewrite Hcommit. reflexivity.
Qed.

(** X2: with an image as well, and storage and commit going through, the
    answer is 201; the file's bytes are held in the container
    [product-images] under the sanitised file name, replacing what was
    held under that name, and the appended row carries the URL made of
    account, container and that name.  Upload, then commit, are the calls
    issued. *)
Theorem add_product_with_image
    (request : Request) (f : Faults) (w : World) (v : Py.pyfloat)
    (upload : FileStorage) :
  Py.truthy (form request !! "name") = true ->
  Py.truthy (form request !! "price") = true ->
  float (text_of (form request !! "price")) = Some v ->
  files request !! "image" = Some upload ->
  file_truthy (Some upload) = true ->
  secure_filename (filename upload) <> EmptyString ->
  storage_fault f = None ->
  db_commit_fault f = None ->
  let stored_as := secure_filename (filename upload) in
  let account := account_name (blob_service_client w) in
  serve (add_product secure_filename float request) f w
  = ((JDict [("message", JStr "Product added successfully")], 201),
     {| db := {| rows := rows (db w)
                         ++ [ {| id := next_id (db w);
                                 name := text_of (form request !! "name");
                                 price := v;
                                 description := form request !! "description";
                                 image_url := Some (uploaded_url account stored_as) |} ];
                 next_id := next_id (db w) + 1 |};
        blob_service_client :=
          {| account_name := account;
             blobs := <[(AZURE_CONTAINER_NAME, stored_as) := stream upload]>
                        (blobs (blob_service_client w)) |};
        trace := trace w ++ [StorageUpload AZURE_CONTAINER_NAME stored_as; DbCommit] |}).
Proof.
  intros Hname Hprice Hfloat Hfile Hsupplied Hsafe Hstorage Hcommit.
  upload_goes_through (secure_filename (filename upload)) Hname Hprice Hfile Hsupplied Hsafe Hstorage.
  destruct (blobs (blob_service_client w) !! _); simpl;
    rewrite Hfloat; simpl; rewrite Hcommit; rewrite <- app_assoc; reflexivity.
Qed.

(** X3: when the upload went through and the commit then fails, the
    answer is 500 with the database error, the table is as it was, and
    the uploaded blob stays in the container: nothing takes it back. *)
Theorem add_product_commit_failure_keeps_blob
    (request : Request) (f : Faults) (w : World) (v : Py.pyfloat)
    (upload : FileStorage) (msg : string) :
  Py.truthy (form request !! "name") = true ->
  Py.truthy (form request !! "price") = true ->
  float (text_of (form request !! "price")) = Some v ->
  files request !! "image" = Some upload ->
  file_truthy (Some upload) = true ->
  secure_filename (filename upload) <> EmptyString ->
  storage_fault f = None ->
  db_commit_fault f = Some msg ->
  let stored_as := secure_filename (filename upload) in
  serve (add_product secure_filename float request) f w
  = ((JDict [("error", JStr "Failed to add product");
             ("details", JStrOf (DatabaseFailure msg))], 500),
     {| db := db w;
        blob_service_client :=
          {| account_name := account_name (blob_service_client w);
             blobs := <[(AZURE_CONTAINER_NAME, stored_as) := stream upload]>
                        (blobs (blob_service_client w)) |};
        trace := trace w ++ [StorageUpload AZURE_CONTAINER_NAME stored_as; DbCommit] |}).
Proof.
  intros Hname Hprice Hfloat Hfile Hsupplied Hsafe Hstorage Hcommit.
  upload_goes_through (secure_filename (filename upload)) Hname Hprice Hfile Hsupplied Hsafe Hstorage.
  destruct (blobs (blob_service_client w) !! _); simpl;
    rewrite Hfloat; simpl; rewrite Hcommit; rewrite <- app_assoc; reflexivity.
Qed.

(** X4: the price is read only after the upload.  With an image and a
    price [float] refuses, the answer is 500 with the [ValueError], no
    database call is issued, and the blob has been stored and stays. *)
Theorem add_product_bad_price_keeps_blob
    (request : Request) (f : Faults) (w : World) (upload : FileStorage) :
  Py.truthy (form request !! "name") = true ->
  Py.truthy (form request !! "price") = true ->
  float (text_of (form request !! "price")) = None ->
  files request !! "image" = Some upload ->
  file_truthy (Some upload) = true ->
  secure_filename (filename upload) <> EmptyString ->
  storage_fault f = None ->
  let stored_as := secure_filename (filename upload) in
  serve (add_product secure_filename float request) f w
  = ((JDict [("error", JStr "Failed to add product");
             ("details", JStrOf (ValueError_float (text_of (form request !! "price"))))],
      500),
     {| db := db w;
        blob_service_client :=
          {| account_name := account_name (blob_service_client w);
             blobs := <[(AZURE_CONTAINER_NAME, stored_as) := stream upload]>
                        (blobs (blob_service_client w)) |};
        trace := trace w ++ [StorageUpload AZURE_CONTAINER_NAME stored_as] |}).
Proof.
  intros Hname Hprice Hfloat Hfile Hsupplied Hsafe Hstorage.
  upload_goes_through (secure_filename (filename upload)) Hname Hprice Hfile Hsupplied Hsafe Hstorage.
  destruct (blobs (blob_service_client w) !! _); simpl;
    rewrite Hfloat; reflexivity.
Qed.

End AddProductStores.

Lemma add_product_without_image_witness :
  let request := Sample.post [("name", "Mug"); ("price", "12.5"); ("description", "blue")]
                             None in
  serve (add_product Werkzeug.secure_filename Py.float request) no_faults Sample.catalog
  = ((JDict [("message", JStr "Product added successfully")], 201),
     {| db := {| rows := rows (db Sample.catalog)
                         ++ [ {| id := next_id (db Sample.catalog);
                                 name := text_of (form request !! "name");
                                 price := Py.FDec false 125 (-1);
                                 description := form request !! "description";
                                 image_url := None |} ];
                 next_id := next_id (db Sample.catalog) + 1 |};
        blob_service_client := blob_service_client Sample.catalog;
        trace := trace Sample.catalog ++ [DbCommit] |}).
Proof.
  apply (add_product_without_image Werkzeug.secure_filename Py.float); vm_compute; reflexivity.
Defined.

Lemma add_product_with_image_witness :
  let request := Sample.post [("name", "Mug"); ("price", "12.5")] (Some Sample.mug_png) in
  let stored_as := Werkzeug.secure_filename (filename Sample.mug_png) in
  let account := account_name (blob_service_client Sample.empty_world) in
  serve (add_product Werkzeug.secure_filename Py.float request) no_faults Sample.empty_world
  = ((JDict [("message", JStr "Product added successfully")], 201),
     {| db := {| rows := rows (db Sample.empty_world)
                         ++ [ {| id := next_id (db Sample.empty_world);
                                 name := text_of (form request !! "name");
                                 price := Py.FDec false 125 (-1);
                                 description := form request !! "description";
                                 image_url := Some (uploaded_url account stored_as) |} ];
                 next_id := next_id (db Sample.empty_world) + 1 |};
        blob_service_client :=
          {| account_name := account;
             blobs := <[(AZURE_CONTAINER_NAME, stored_as) := stream Sample.mug_png]>
                        (blobs (blob_service_client Sample.empty_world)) |};
        trace := trace Sample.empty_world
                 ++ [StorageUpload AZURE_CONTAINER_NAME stored_as; DbCommit] |}).
Proof.
  apply (add_product_with_image Werkzeug.secure_filename Py.float _ _ _ _ Sample.mug_png);
    vm_compute; (reflexivity || congruence).
Defined.

Lemma add_product_commit_failure_keeps_blob_witness :
  let request := Sample.post [("name", "Mug"); ("price", "12.5")] (Some Sample.mug_png) in
  let stored_as := Werkzeug.secure_filename (filename Sample.mug_png) in
  serve (add_product Werkzeug.secure_filename Py.float request) Shop.database_down Sample.empty_world
  = ((JDict [("error", JStr "Failed to add product");
             ("details", JStrOf (DatabaseFailure "deadlock"))], 500),
     {| db := db Sample.empty_world;
        blob_service_client :=
          {| account_name := account_name (blob_service_client Sample.empty_world);
             blobs := <[(AZURE_CONTAINER_NAME, stored_as) := stream Sample.mug_png]>
                        (blobs (blob_service_client Sample.empty_world)) |};
        trace := trace Sample.empty_world
                 ++ [StorageUpload AZURE_CONTAINER_NAME stored_as; DbCommit] |}).
Proof.
  apply (add_product_commit_failure_keeps_blob Werkzeug.secure_filename Py.float _ _ _
           (Py.FDec false 125 (-1)) Sample.mug_png "deadlock");
    vm_compute; (reflexivity || congruence).
Defined.

Lemma add_product_bad_price_keeps_blob_witness :
  let request := Sample.post [("name", "Mug"); ("price", "12,5")] (Some Sample.mug_png) in
  let stored_as := Werkzeug.secure_filename (filename Sample.mug_png) in
  serve (add_product Werkzeug.secure_filename Py.float request) no_faults Sample.empty_world
  = ((JDict [("error", JStr "Failed to add product");
             ("details", JStrOf (ValueError_float (text_of (form request !! "price"))))],
      500),
     {| db := db Sample.empty_world;
        blob_service_client :=
          {| account_name := account_name (blob_service_client Sample.empty_world);
             blobs := <[(AZURE_CONTAINER_NAME, stored_as) := stream Sample.mug_png]>
                        (blobs (blob_service_client Sample.empty_world)) |};
        trace := trace Sample.empty_world
                 ++ [StorageUpload AZURE_CONTAINER_NAME stored_as] |}).
Proof.
  apply (add_product_bad_price_keeps_blob Werkzeug.secure_filename Py.float _ _ _ Sample.mug_png);
    vm_compute; (reflexivity || congruence).
Defined.

(** ** Deleting one product: what is removed *)

(** X5: the blob name [delete_product] reads off a stored URL is the
    name [add_product] uploaded under, whenever that name has no slash in
    it: the last segment of [https://<account>.blob.core.windows.net/
    product-images/<name>] is [<name>], whatever the account is called. *)
Theorem blob_of_uploaded_url (p : Product) (account filename : string) :
  image_url p = Some (uploaded_url account filename) ->
  no_slash filename = true ->
  blob_of p = filename.
Proof.
  intros Hurl Hname. unfold blob_of. rewrite Hurl.
  apply uploaded_url_last_segment, Hname.
Qed.

Lemma blob_of_uploaded_url_witness : blob_of Sample.red_mug = "red_mug.png".
Proof.
  apply (blob_of_uploaded_url Sample.red_mug "catalog" "red_mug.png"); reflexivity.
Defined.

(** X6: deleting a product whose blob is held, with storage and database
    going through: the answer is 200, the blob named by the URL's last
    segment is removed from [product-images], every row with that id is
    removed and the other rows keep their order; lookup, blob deletion
    and commit are issued in that order. *)
Theorem delete_product_with_image
    (product_id : Z) (f : Faults) (w : World) (p : Product) (held : string) :
  db_select_fault f = None ->
  row_with_id product_id w = Some p ->
  Py.truthy (image_url p) = true ->
  blob_of p <> EmptyString ->
  storage_fault f = None ->
  blobs (blob_service_client w) !! (AZURE_CONTAINER_NAME, blob_of p) = Some held ->
  db_commit_fault f = None ->
  serve (delete_product product_id) f w
  = ((JDict [("message", JStr "Product deleted successfully")], 200),
     {| db := {| rows := List.filter (fun r => negb (id r =? id p)) (rows (db w));
                 next_id := next_id (db w) |};
        blob_service_client :=
          {| account_name := account_name (blob_service_client w);
             blobs := delete (AZURE_CONTAINER_NAME, blob_of p)
                             (blobs (blob_service_client w)) |};
        trace := trace w ++ [DbSelectById product_id;
                             StorageDelete AZURE_CONTAINER_NAME (blob_of p);
                             DbCommit] |}).
Proof.
  intros Hselect Hrow Himage Hblob Hstorage Hheld Hcommit.
  row_with_image_found Hselect Hrow Himage.
  rewrite Hstorage. simpl. rewrite Hheld. simpl. rewrite Hcommit.
  rewrite <- !app_assoc. reflexivity.
Qed.

Lemma delete_product_with_image_witness :
  serve (delete_product 1) no_faults Sample.catalog
  = ((JDict [("message", JStr "Product deleted successfully")], 200),
     {| db := {| rows := List.filter (fun r => negb (id r =? id Sample.red_mug))
                                     (rows (db Sample.catalog));
                 next_id := next_id (db Sample.catalog) |};
        blob_service_client :=
          {| account_name := account_name (blob_service_client Sample.catalog);
             blobs := delete (AZURE_CONTAINER_NAME, blob_of Sample.red_mug)
                             (blobs (blob_service_client Sample.catalog)) |};
        trace := trace Sample.catalog
                 ++ [DbSelectById 1;
                     StorageDelete AZURE_CONTAINER_NAME (blob_of Sample.red_mug);
                     DbCommit] |}).
Proof.
  apply (delete_product_with_image 1 no_faults Sample.catalog Sample.red_mug "PNG");
    vm_compute; (reflexivity || congruence).
Defined.

(** X7: a row without an image URL ([None] or the empty string) is
    deleted without a word to the storage: lookup and commit are the
    calls issued, the storage account is as it was, the answer is 200. *)
Theorem delete_product_without_image
    (product_id : Z) (f : Faults) (w : World) (p : Product) :
  db_select_fault f = None ->
  row_with_id product_id w = Some p ->
  Py.truthy (image_url p) = false ->
  db_commit_fault f = None ->
  serve (delete_product product_id) f w
  = ((JDict [("message", JStr "Product deleted successfully")], 200),
     {| db := {| rows := List.filter (fun r => negb (id r =? id p)) (rows (db w));
                 next_id := next_id (db w) |};
        blob_service_client := blob_service_client w;
        trace := trace w ++ [DbSelectById product_id; DbCommit] |}).
Proof.
  unfold row_with_id. intros Hselect Hrow Himage Hcommit.
  unfold delete_product. run_view.
  rewrite Hselect. simpl. rewrite Hrow, Himage. simpl. rewrite Hcommit.
  rewrite <- app_assoc. reflexivity.
Qed.

Lemma delete_product_without_image_witness :
  serve (delete_product 2) Sample.storage_down Sample.catalog
  = ((JDict [("message", JStr "Product deleted successfully")], 200),
     {| db := {| rows := List.filter (fun r => negb (id r =? id Sample.red_hat))
                                     (rows (db Sample.catalog));
                 next_id := next_id (db Sample.catalog) |};
        blob_service_client := blob_service_client Sample.catalog;
        trace := trace Sample.catalog ++ [DbSelectById 2; DbCommit] |}).
Proof.
  apply (delete_product_without_image 2 Sample.storage_down Sample.catalog Sample.red_hat);
    vm_compute; reflexivity.
Defined.

(** X8: the blob goes first and is not brought back.  When the blob was
    deleted and the commit then fails, the answer is 500 with the
    database error, the row is still in the table, and the blob its URL
    names is gone from the container. *)
Theorem delete_product_commit_failure_loses_blob
    (product_id : Z) (f : Faults) (w : World) (p : Product) (held msg : string) :
  db_select_fault f = None ->
  row_with_id product_id w = Some p ->
  Py.truthy (image_url p) = true ->
  blob_of p <> EmptyString ->
  storage_fault f = None ->
  blobs (blob_service_client w) !! (AZURE_CONTAINER_NAME, blob_of p) = Some held ->
  db_commit_fault f = Some msg ->
  let out := serve (delete_product product_id) f w in
  fst out = (JDict [("error", JStr "Failed to delete product");
                    ("details", JStrOf (DatabaseFailure msg))], 500)
  /\ db (world_after out) = db w
  /\ row_with_id product_id (world_after out) = Some p
  /\ blobs (blob_service_client (world_after out)) !! (AZURE_CONTAINER_NAME, blob_of p)
     = None.
Proof.
  intros Hselect Hrow Himage Hblob Hstorage Hheld Hcommit.
  pose proof Hrow as Hrow'. unfold row_with_id in Hrow'.
  row_with_image_found Hselect Hrow Himage.
  rewrite Hstorage. simpl. rewrite Hheld. simpl. rewrite Hcommit. simpl.
  repeat split; [exact Hrow' | apply lookup_delete_eq].
Qed.

Lemma delete_product_commit_failure_loses_blob_witness :
  let out := serve (delete_product 1) Shop.database_down Sample.catalog in
  fst out = (JDict [("error", JStr "Failed to delete product");
                    ("details", JStrOf (DatabaseFailure "deadlock"))], 500)
  /\ db (world_after out) = db Sample.catalog
  /\ row_with_id 1 (world_after out) = Some Sample.red_mug
  /\ blobs (blob_service_client (world_after out))
       !! (AZURE_CONTAINER_NAME, blob_of Sample.red_mug)
     = None.
Proof.
  apply (delete_product_commit_failure_loses_blob 1 Shop.database_down Sample.catalog
           Sample.red_mug "PNG" "deadlock");
    vm_compute; (reflexivity || congruence).
Defined.

Lemma find_filter_other (k1 k2 : Z) (ps : list Product) :
  k1 <> k2 ->
  List.find (fun r => id r =? k2) (List.filter (fun r => negb (id r =? k1)) ps)
  = List.find (fun r => id r =? k2) ps.
Proof.
  intros Hne. induction ps as [|r ps IH]; simpl; [reflexivity|].
  destruct (id r =? k1) eqn:H1; simpl.
  - apply Z.eqb_eq in H1. destruct (id r =? k2) eqn:H2; [|exact IH].
    apply Z.eqb_eq in H2. congruence.
  - destruct (id r =? k2); [reflexivity | exact IH].
Qed.

Lemma find_some_id (k : Z) (ps : list Product) (p : Product) :
  List.find (fun r => id r =? k) ps = Some p -> id p = k.
Proof. intros H. apply find_some in H as [_ H]. apply Z.eqb_eq, H. Qed.

(** ** Creating and deleting, one after the other *)

Section AddThenDelete.

Variable secure_filename : string -> string.
Variable float : string -> option Py.pyfloat.

(** X9: a product created with an image and then deleted by the id it
    was given leaves the table with the rows it had before (the id is
    spent: the next one is one higher) and the container without a blob
    of that name.  The sanitised name must have no slash in it, the id
    about to be given must be unused, and storage and database must go
    through. *)
Theorem add_then_delete_product
    (request : Request) (f : Faults) (w : World) (v : Py.pyfloat)
    (upload : FileStorage) :
  Py.truthy (form request !! "name") = true ->
  Py.truthy (form request !! "price") = true ->
  float (text_of (form request !! "price")) = Some v ->
  files request !! "image" = Some upload ->
  file_truthy (Some upload) = true ->
  secure_filename (filename upload) <> EmptyString ->
  no_slash (secure_filename (filename upload)) = true ->
  (forall r, In r (rows (db w)) -> id r <> next_id (db w)) ->
  storage_fault f = None ->
  db_select_fault f = None ->
  db_commit_fault f = None ->
  let added := world_after (serve (add_product secure_filename float request) f w) in
  let out := serve (delete_product (next_id (db w))) f added in
  fst out = (JDict [("message", JStr "Product deleted successfully")], 200)
  /\ rows (db (world_after out)) = rows (db w)
  /\ next_id (db (world_after out)) = next_id (db w) + 1
  /\ blobs (blob_service_client (world_after out))
     = delete (AZURE_CONTAINER_NAME, secure_filename (filename upload))
              (blobs (blob_service_client w)).
Proof.
  intros Hname Hprice Hfloat Hfile Hsupplied Hsafe Hslash Hfresh Hstorage Hselect Hcommit.
  set (stored_as := secure_filename (filename upload)) in *.
  set (url := uploaded_url (account_name (blob_service_client w)) stored_as).
  assert (Hadd :
    serve (add_product secure_filename float request) f w
    = ((JDict [("message", JStr "Product added successfully")], 201),
       {| db := {| rows := rows (db w)
                           ++ [ {| id := next_id (db w);
                                   name := text_of (form request !! "name");
                                   price := v;
                                   description := form request !! "description";
                                   image_url := Some url |} ];
                   next_id := next_id (db w) + 1 |};
          blob_service_client :=
            {| account_name := account_name (blob_service_client w);
               blobs := <[(AZURE_CONTAINER_NAME, stored_as) := stream upload]>
                          (blobs (blob_service_client w)) |};
          trace := trace w ++ [StorageUpload AZURE_CONTAINER_NAME stored_as; DbCommit] |})).
  { subst url stored_as. clear Hslash.
    upload_goes_through (secure_filename (filename upload))
                        Hname Hprice Hfile Hsupplied Hsafe Hstorage.
    destruct (blobs (blob_service_client w) !! _); simpl;
      rewrite Hfloat; simpl; rewrite Hcommit; rewrite <- app_assoc; reflexivity. }
  assert (Htruthy : Py.truthy (Some url) = true) by apply uploaded_url_truthy.
  assert (Hlast : Py.last_item (Py.split "/" url) = stored_as)
    by apply uploaded_url_last_segment, Hslash.
  clearbody url. simpl in Htruthy. cbv zeta. rewrite Hadd. clear Hadd.
  unfold delete_product. run_view. rewrite Hselect. simpl.
  rewrite find_appended by (exact Hfresh || reflexivity). simpl.
  rewrite Htruthy, Hlast. unfold get_blob_client. simpl.
  destruct stored_as as [|c rest] eqn:Hstored; [congruence|].
  simpl. unfold delete_blob, blob_key. run_view.
  rewrite Hstorage. simpl. rewrite lookup_insert_eq. simpl. rewrite Hcommit. simpl.
  rewrite filter_appended by (exact Hfresh || reflexivity).
  rewrite delete_insert_eq.
  repeat split.
Qed.

End AddThenDelete.

Lemma add_then_delete_product_witness :
  let request := Sample.post [("name", "Mug"); ("price", "12.5")] (Some Sample.mug_png) in
  let added := world_after (serve (add_product Werkzeug.secure_filename Py.float request)
                                  no_faults Sample.catalog) in
  let out := serve (delete_product (next_id (db Sample.catalog))) no_faults added in
  fst out = (JDict [("message", JStr "Product deleted successfully")], 200)
  /\ rows (db (world_after out)) = rows (db Sample.catalog)
  /\ next_id (db (world_after out)) = next_id (db Sample.catalog) + 1
  /\ blobs (blob_service_client (world_after out))
     = delete (AZURE_CONTAINER_NAME, Werkzeug.secure_filename (filename Sample.mug_png))
              (blobs (blob_service_client Sample.catalog)).
Proof.
  apply (add_then_delete_product Werkzeug.secure_filename Py.float _ no_faults Sample.catalog
           (Py.FDec false 125 (-1)) Sample.mug_png);
    try (vm_compute; (reflexivity || congruence)).
  intros r Hin. simpl in Hin.
  destruct Hin as [<- | [<- | [<- | []]]]; simpl; lia.
Defined.

(** X10: two rows whose URLs end in the same blob name share one blob.
    Deleting the first removes it; deleting the second then finds no
    blob, answers 500 with the storage's "not found", and the second row
    stays in the table. *)
Theorem delete_product_shared_blob
    (k1 k2 : Z) (f : Faults) (w : World) (p1 p2 : Product) (held : string) :
  row_with_id k1 w = Some p1 ->
  row_with_id k2 w = Some p2 ->
  k1 <> k2 ->
  Py.truthy (image_url p1) = true ->
  Py.truthy (image_url p2) = true ->
  blob_of p1 = blob_of p2 ->
  blob_of p1 <> EmptyString ->
  blobs (blob_service_client w) !! (AZURE_CONTAINER_NAME, blob_of p1) = Some held ->
  storage_fault f = None ->
  db_select_fault f = None ->
  db_commit_fault f = None ->
  let first := serve (delete_product k1) f w in
  let second := serve (delete_product k2) f (world_after first) in
  status_of first = 200
  /\ fst second = (JDict [("error", JStr "Failed to delete product");
                          ("details", JStrOf (ResourceNotFoundError (blob_of p2)))], 500)
  /\ row_with_id k2 (world_after second) = Some p2.
Proof.
  intros Hrow1 Hrow2 Hne Himage1 Himage2 Hsame Hblob Hheld Hstorage Hselect Hcommit.
  assert (Hid1 : id p1 = k1) by (apply (find_some_id _ _ _ Hrow1)).
  subst k1.
  assert (Hfirst :
    serve (delete_product (id p1)) f w
    = ((JDict [("message", JStr "Product deleted successfully")], 200),
       {| db := {| rows := List.filter (fun r => negb (id r =? id p1)) (rows (db w));
                   next_id := next_id (db w) |};
          blob_service_client :=
            {| account_name := account_name (blob_service_client w);
               blobs := delete (AZURE_CONTAINER_NAME, blob_of p1)
                               (blobs (blob_service_client w)) |};
          trace := trace w ++ [DbSelectById (id p1);
                               StorageDelete AZURE_CONTAINER_NAME (blob_of p1);
                               DbCommit] |})).
  { clear Hrow2 Himage2 Hsame.
    row_with_image_found Hselect Hrow1 Himage1.
    rewrite Hstorage. simpl. rewrite Hheld. simpl. rewrite Hcommit.
    rewrite <- !app_assoc. reflexivity. }
  cbv zeta. rewrite Hfirst. clear Hfirst.
  split; [reflexivity|].
  unfold row_with_id, blob_of in *.
  unfold delete_product. run_view. rewrite Hselect. simpl.
  rewrite (find_filter_other (id p1) k2 _ Hne), Hrow2, Himage2.
  unfold get_blob_client. simpl. rewrite <- Hsame.
  destruct (Py.last_item _) as [|c rest]; [congruence|].
  simpl. unfold delete_blob, blob_key. run_view.
  rewrite Hstorage. simpl. rewrite lookup_delete_eq. simpl.
  rewrite (find_filter_other (id p1) k2 _ Hne). split; [reflexivity | exact Hrow2].
Qed.

Lemma delete_product_shared_blob_witness :
  let first := serve (delete_product 1) no_faults Shop.stock in
  let second := serve (delete_product 2) no_faults (world_after first) in
  status_of first = 200
  /\ fst second = (JDict [("error", JStr "Failed to delete product");
                          ("details", JStrOf (ResourceNotFoundError (blob_of Shop.poster_a4)))],
                   500)
  /\ row_with_id 2 (world_after second) = Some Shop.poster_a4.
Proof.
  apply (delete_product_shared_blob 1 2 no_faults Shop.stock Shop.poster_a3
           Shop.poster_a4 "PNG");
    vm_compute; (reflexivity || congruence).
Defined.

(** ** Every route *)

(** X11: no route lets an exception through.  Whatever the request, the
    faults and the stored state, the view answers with one of 200, 201,
    400, 404 and 500, and a 500 always carries the view's own body, an
    [error] summary and the [details] of what was raised. *)
Theorem every_view_answers
    (secure_filename : string -> string) (float : string -> option Py.pyfloat)
    (e : Endpoint) (f : Faults) (w : World) :
  let out := serve (view_of secure_filename float e) f w in
  In (status_of out) [200; 201; 400; 404; 500]
  /\ (status_of out = 500 -> is_failure_body (body_of out)).
Proof.
  unfold is_failure_body.
  destruct e; open_views; all_branches;
    (split; [tauto | intros; try discriminate; eexists _, _; reflexivity]).
Qed.

(** X12: the listing reads and nothing else.  Table and storage are as
    they were and one select is the call issued; when the select goes
    through the answer is 200 with one object per row, in table order,
    and when it fails the answer is 500 with the database error. *)
Theorem get_products_lists_the_table (f : Faults) (w : World) :
  let out := serve get_products f w in
  db (world_after out) = db w
  /\ blob_service_client (world_after out) = blob_service_client w
  /\ issued w (world_after out) = [DbSelectAll]
  /\ (db_select_fault f = None ->
      fst out = (JList (List.map product_json (rows (db w))), 200))
  /\ (forall msg, db_select_fault f = Some msg ->
      fst out = (JDict [("error", JStr "Failed to fetch products");
                        ("details", JStrOf (DatabaseFailure msg))], 500)).
Proof.
  unfold get_products. run_view.
  destruct (db_select_fault f) as [msg|]; simpl; rewrite issued_app;
    repeat split; intros; congruence.
Qed.

Lemma get_products_lists_the_table_witness :
  let out := serve get_products no_faults Shop.stock in
  db (world_after out) = db Shop.stock
  /\ blob_service_client (world_after out) = blob_service_client Shop.stock
  /\ issued Shop.stock (world_after out) = [DbSelectAll]
  /\ fst out = (JList (List.map product_json (rows (db Shop.stock))), 200).
Proof.
  destruct (get_products_lists_the_table no_faults Shop.stock)
    as (Hdb & Hstorage & Hcalls & Hok & _).
  exact (conj Hdb (conj Hstorage (conj Hcalls (Hok eq_refl)))).
Defined.

Lemma list_filter_sublist {A} (keep : A -> bool) (l : list A) :
  sublist (List.filter keep l) l.
Proof.
  induction l as [|x l IH]; simpl; [constructor|].
  destruct (keep x); constructor; exact IH.
Qed.

(** X13: the search reads and nothing else, whatever the query.  Table
    and storage are as they were and one select is the call issued: the
    listing's when nothing is left of the query after stripping, the
    [LIKE] select of the stripped query between two [%] otherwise.  When
    the answer is a list, its items are the objects of rows of the table,
    in table order, none twice over: a sub-sequence of what the listing
    shows. *)
Theorem search_products_selects_from_the_table
    (request : Request) (f : Faults) (w : World) :
  let query := Py.strip (default EmptyString (args request !! "q")) in
  let out := serve (search_products request) f w in
  db (world_after out) = db w
  /\ blob_service_client (world_after out) = blob_service_client w
  /\ issued w (world_after out)
     = [ if Py.truthy (Some query)
         then DbSelectLike ("%" +:+ query +:+ "%")
         else DbSelectAll ]
  /\ (forall items, body_of out = JList items ->
      exists ps, items = List.map product_json ps /\ sublist ps (rows (db w))).
Proof.
  unfold search_products, get_products. run_view.
  destruct (Py.strip _) as [|c q]; simpl;
    destruct (db_select_fault f) as [msg|]; simpl; rewrite issued_app;
    repeat split;
    intros items; try discriminate; intros [= <-]; eexists;
    (split; [reflexivity|]); first [apply list_filter_sublist | reflexivity].
Qed.

Lemma search_products_selects_from_the_table_witness :
  let out := serve (search_products (Sample.search (Some "_o%r"))) no_faults Shop.stock in
  db (world_after out) = db Shop.stock
  /\ blob_service_client (world_after out) = blob_service_client Shop.stock
  /\ issued Shop.stock (world_after out) = [DbSelectLike "%_o%r%"]
  /\ (exists ps, [product_json Shop.poster_a3; product_json Shop.poster_a4]
                 = List.map product_json ps
                 /\ sublist ps (rows (db Shop.stock))).
Proof.
  destruct (search_products_selects_from_the_table (Sample.search (Some "_o%r"))
              no_faults Shop.stock) as (Hdb & Hstorage & Hcalls & Hitems).
  refine (conj Hdb (conj Hstorage (conj Hcalls (Hitems _ _)))).
  vm_compute. reflexivity.
Defined.

(** *** Queries that [LIKE] reads its own way *)

Lemma like_all_percent (pattern s : string) :
  all_percent pattern = true -> pattern <> EmptyString ->
  Sql.like pattern s = true.
Proof.
  induction pattern as [|c rest IH]; [congruence|].
  simpl all_percent. intros Hall _.
  apply andb_true_iff in Hall as [Hc Hrest]. apply Ascii.eqb_eq in Hc. subst c.
  destruct rest as [|d rest']; [apply like_percent|].
  rewrite like_any_run, IH by (exact Hrest || discriminate). reflexivity.
Qed.

Lemma lower_all_percent (s : string) : all_percent s = true -> Py.lower s = s.
Proof.
  induction s as [|c s IH]; simpl; [reflexivity|].
  intros Hall. apply andb_true_iff in Hall as [Hc Hs].
  apply Ascii.eqb_eq in Hc. subst c. rewrite IH by exact Hs. reflexivity.
Qed.

Lemma all_percent_app (a b : string) :
  all_percent (a +:+ b) = all_percent a && all_percent b.
Proof.
  induction a as [|c a IH]; [reflexivity|].
  change (String c a +:+ b) with (String c (a +:+ b)). simpl.
  rewrite IH, andb_assoc. reflexivity.
Qed.

Lemma filter_keeps_all {A} (keep : A -> bool) (l : list A) :
  (forall x, keep x = true) -> List.filter keep l = l.
Proof.
  intros Hall. induction l as [|x l IH]; simpl; [reflexivity|].
  rewrite Hall, IH. reflexivity.
Qed.

(** X14: a query made of percent signs only is no filter at all.  The
    signs go into the pattern as they are, the pattern matches every
    name, the empty one too, and the search answers what the listing
    answers: every row, in table order. *)
Theorem search_products_percent_query
    (request : Request) (f : Faults) (w : World) (q : string) :
  args request !! "q" = Some q ->
  Py.strip q <> EmptyString ->
  all_percent (Py.strip q) = true ->
  db_select_fault f = None ->
  fst (serve (search_products request) f w)
  = (JList (List.map product_json (rows (db w))), 200).
Proof.
  intros Hq Hnonempty Hall Hselect.
  unfold search_products. rewrite Hq.
  change (default EmptyString (Some q)) with q.
  destruct (Py.strip q) as [|c query] eqn:Hstrip; [congruence|].
  run_view. rewrite Hselect. simpl.
  do 3 f_equal. apply filter_keeps_all. intros p.
  unfold Sql.ilike.
  assert (Hpattern : all_percent ("%" +:+ String c query +:+ "%") = true).
  { rewrite all_percent_app, all_percent_app, Hall. reflexivity. }
  rewrite (lower_all_percent _ Hpattern).
  apply like_all_percent; [exact Hpattern | discriminate].
Qed.

Lemma search_products_percent_query_witness :
  fst (serve (search_products (Sample.search (Some " %% "))) no_faults Shop.stock)
  = (JList (List.map product_json (rows (db Shop.stock))), 200).
Proof.
  apply (search_products_percent_query _ _ _ " %% ");
    vm_compute; (reflexivity || congruence).
Defined.

Lemma lower_pattern (s : string) :
  Py.lower ("%" +:+ s +:+ "%") = "%" +:+ Py.lower s +:+ "%".
Proof.
  change ("%" +:+ s +:+ "%") with (String "%" (s +:+ "%")).
  cbn [Py.lower]. rewrite lower_app. reflexivity.
Qed.

(** X15: the search reads the query without regard to letter case, be it
    a plain word or a pattern: two queries that are the same once
    stripped and lowered get the same answer on the same table. *)
Theorem search_products_ignores_query_case
    (request1 request2 : Request) (f : Faults) (w : World) (q1 q2 : string) :
  args request1 !! "q" = Some q1 ->
  args request2 !! "q" = Some q2 ->
  Py.lower (Py.strip q1) = Py.lower (Py.strip q2) ->
  fst (serve (search_products request1) f w)
  = fst (serve (search_products request2) f w).
Proof.
  intros Hq1 Hq2 Hsame.
  destruct (Py.strip q1) as [|c1 s1] eqn:H1; destruct (Py.strip q2) as [|c2 s2] eqn:H2;
    try discriminate Hsame.
  - rewrite !search_products_empty_query; [reflexivity | ..];
      [rewrite Hq2 | rewrite Hq1]; assumption.
  - unfold search_products. rewrite Hq1, Hq2.
    change (default EmptyString (Some q1)) with q1.
    change (default EmptyString (Some q2)) with q2.
    rewrite H1, H2. run_view.
    destruct (db_select_fault f) as [msg|]; simpl; [reflexivity|].
    do 3 f_equal. apply filter_ext. intros p.
    unfold Sql.ilike. rewrite !lower_pattern, Hsame. reflexivity.
Qed.

Lemma search_products_ignores_query_case_witness :
  fst (serve (search_products (Sample.search (Some " POSTER a_"))) no_faults Shop.stock)
  = fst (serve (search_products (Sample.search (Some "poster A_  "))) no_faults Shop.stock).
Proof.
  apply (search_products_ignores_query_case _ _ _ _ " POSTER a_" "poster A_  ");
    vm_compute; reflexivity.
Defined.

(** ** What no route does *)

(** X16: the service keeps to its own container.  Whatever the route, the
    request and the faults, a blob of any other container of the account
    is held afterwards exactly as before, and the account the client
    speaks to is the same. *)
Theorem other_containers_are_untouched
    (secure_filename : string -> string) (float : string -> option Py.pyfloat)
    (e : Endpoint) (f : Faults) (w : World)
    (container blob : string) :
  container <> AZURE_CONTAINER_NAME ->
  let out := serve (view_of secure_filename float e) f w in
  blobs (blob_service_client (world_after out)) !! (container, blob)
  = blobs (blob_service_client w) !! (container, blob)
  /\ account_name (blob_service_client (world_after out))
     = account_name (blob_service_client w).
Proof.
  unfold AZURE_CONTAINER_NAME. intros Hother.
  destruct e; open_views; all_branches; (split; [|reflexivity]);
    rewrite ?lookup_insert_ne, ?lookup_delete_ne
      by (unfold AZURE_CONTAINER_NAME; congruence);
    reflexivity.
Qed.

Lemma other_containers_are_untouched_witness :
  let out := serve (view_of Werkzeug.secure_filename Py.float (DELETE_products_id 1))
                   no_faults Shop.stock in
  blobs (blob_service_client (world_after out)) !! ("invoices", "2024.pdf")
  = blobs (blob_service_client Shop.stock) !! ("invoices", "2024.pdf")
  /\ account_name (blob_service_client (world_after out))
     = account_name (blob_service_client Shop.stock).
Proof.
  apply (other_containers_are_untouched Werkzeug.secure_filename Py.float
           (DELETE_products_id 1) no_faults Shop.stock "invoices" "2024.pdf").
  vm_compute. congruence.
Defined.

Lemma ids_in_order_insert (d : Database) (n : string) (v : Py.pyfloat)
    (t u : option string) :
  ids_in_order d ->
  ids_in_order {| rows := rows d ++ [ {| id := next_id d; name := n; price := v;
                                         description := t; image_url := u |} ];
                  next_id := next_id d + 1 |}.
Proof.
  intros [Hdup Hbelow]. split; simpl.
  - rewrite map_app. simpl. apply NoDup_app; split; [exact Hdup|]. split.
    + intros k Hk Hnew. apply list_elem_of_In in Hk, Hnew.
      destruct Hnew as [<- | []].
      apply in_map_iff in Hk as (r & Hid & Hr).
      rewrite Forall_forall in Hbelow. apply list_elem_of_In, Hbelow in Hr. lia.
    + repeat constructor. intros Hin. inversion Hin.
  - apply Forall_app. split.
    + eapply Forall_impl; [exact Hbelow|]. simpl. intros r Hr. lia.
    + repeat constructor. simpl. lia.
Qed.

Lemma ids_in_order_filter (d : Database) (keep : Product -> bool) :
  ids_in_order d ->
  ids_in_order {| rows := List.filter keep (rows d); next_id := next_id d |}.
Proof.
  intros [Hdup Hbelow]. split; simpl.
  - eapply sublist_NoDup; [exact Hdup|].
    apply (fmap_sublist id), list_filter_sublist.
  - rewrite Forall_forall in *. intros r Hr. apply Hbelow.
    eapply elem_of_sublist; [exact Hr | apply list_filter_sublist].
Qed.

Lemma ids_in_order_clear (d : Database) :
  ids_in_order {| rows := []; next_id := next_id d |}.
Proof. split; simpl; constructor. Qed.

(** X17: ids are given once.  If no two rows share an id and every id is
    below the next one to be given, the same holds after any route
    has run, under any faults, and the next id has not gone down: a
    deleted row's id is not handed out again. *)
Theorem ids_stay_in_order
    (secure_filename : string -> string) (float : string -> option Py.pyfloat)
    (e : Endpoint) (f : Faults) (w : World) :
  ids_in_order (db w) ->
  let out := serve (view_of secure_filename float e) f w in
  ids_in_order (db (world_after out))
  /\ next_id (db w) <= next_id (db (world_after out)).
Proof.
  intros Hids.
  destruct e; open_views; all_branches;
    (split; [first [ exact Hids
                   | apply ids_in_order_insert, Hids
                   | apply ids_in_order_filter, Hids
                   | apply ids_in_order_clear ]
            | lia]).
Qed.

Lemma ids_stay_in_order_witness :
  let request := Sample.post [("name", "Mug"); ("price", "12.5")] (Some Sample.mug_png) in
  let out := serve (view_of Werkzeug.secure_filename Py.float (POST_products request))
                   no_faults Shop.stock in
  ids_in_order (db (world_after out))
  /\ next_id (db Shop.stock) <= next_id (db (world_after out)).
Proof.
  apply (ids_stay_in_order Werkzeug.secure_filename Py.float).
  split; simpl.
  - repeat constructor; simpl; intros Hin; inversion Hin; subst;
      repeat match goal with
             | H : _ ∈ _ |- _ => inversion H; clear H; subst
             end; discriminate.
  - repeat constructor; simpl; lia.
Defined.

(** ** Failures at the edges *)

(** X18: the bulk delete is all or nothing.  When the delete statement
    or the commit fails, the answer is 500 with the database error and
    every row is still in the table. *)
Theorem delete_all_products_failure_keeps_rows (f : Faults) (w : World) (msg : string) :
  db_delete_fault f = Some msg
  \/ (db_delete_fault f = None /\ db_commit_fault f = Some msg) ->
  let out := serve delete_all_products f w in
  fst out = (JDict [("error", JStr "Failed to delete all products");
                    ("details", JStrOf (DatabaseFailure msg))], 500)
  /\ db (world_after out) = db w.
Proof.
  intros [Hdelete | [Hdelete Hcommit]]; unfold delete_all_products; run_view;
    rewrite Hdelete; simpl; [|rewrite Hcommit; simpl]; split; reflexivity.
Qed.

Lemma delete_all_products_failure_keeps_rows_witness :
  let out := serve delete_all_products Shop.database_down Shop.stock in
  fst out = (JDict [("error", JStr "Failed to delete all products");
                    ("details", JStrOf (DatabaseFailure "deadlock"))], 500)
  /\ db (world_after out) = db Shop.stock.
Proof.
  apply (delete_all_products_failure_keeps_rows Shop.database_down Shop.stock "deadlock").
  right. split; reflexivity.
Defined.

(** X19: a row whose URL ends in a slash names no blob.  The blob client
    refuses the empty name before anything is sent: the answer is 500,
    the lookup is the only call issued, and the row cannot be deleted
    this way. *)
Theorem delete_product_url_without_blob_name
    (product_id : Z) (f : Faults) (w : World) (p : Product) :
  db_select_fault f = None ->
  row_with_id product_id w = Some p ->
  Py.truthy (image_url p) = true ->
  blob_of p = EmptyString ->
  serve (delete_product product_id) f w
  = ((JDict [("error", JStr "Failed to delete product");
             ("details", JStrOf ValueError_blob_name)], 500),
     {| db := db w; blob_service_client := blob_service_client w;
        trace := trace w ++ [DbSelectById product_id] |}).
Proof.
  unfold row_with_id, blob_of. intros Hselect Hrow Himage Hblob.
  unfold delete_product. run_view.
  rewrite Hselect. simpl. rewrite Hrow, Himage.
  unfold get_blob_client. rewrite Hblob. reflexivity.
Qed.

Lemma delete_product_url_without_blob_name_witness :
  let folder := {| id := 5; name := "Folder"; price := Py.FDec false 2 0;
                   description := None;
                   image_url := Some "https://catalog.blob.core.windows.net/product-images/" |} in
  let w := Sample.with_rows [folder] ∅ in
  serve (delete_product 5) no_faults w
  = ((JDict [("error", JStr "Failed to delete product");
             ("details", JStrOf ValueError_blob_name)], 500),
     {| db := db w; blob_service_client := blob_service_client w;
        trace := trace w ++ [DbSelectById 5] |}).
Proof.
  apply (delete_product_url_without_blob_name 5 no_faults _
           {| id := 5; name := "Folder"; price := Py.FDec false 2 0;
              description := None;
              image_url := Some "https://catalog.blob.core.windows.net/product-images/" |});
    reflexivity.
Defined.

(** X20: an image whose file name sanitises to nothing stops the
    request before any call: the answer is 500, nothing is uploaded,
    nothing is inserted, and the world is as it was. *)
Theorem add_product_unusable_file_name
    (secure_filename : string -> string) (float : string -> option Py.pyfloat)
    (request : Request) (f : Faults) (w : World) (upload : FileStorage) :
  Py.truthy (form request !! "name") = true ->
  Py.truthy (form request !! "price") = true ->
  files request !! "image" = Some upload ->
  file_truthy (Some upload) = true ->
  secure_filename (filename upload) = EmptyString ->
  serve (add_product secure_filename float request) f w
  = ((JDict [("error", JStr "Failed to add product");
             ("details", JStrOf ValueError_blob_name)], 500), w).
Proof.
  intros Hname Hprice Hfile Hsupplied Hsafe.
  unfold add_product. cbv zeta. rewrite Hname, Hprice, Hfile, Hsupplied, Hsafe.
  reflexivity.
Qed.

Lemma add_product_unusable_file_name_witness :
  let dots := {| filename := "../.."; stream := "PNG" |} in
  serve (add_product Werkzeug.secure_filename Py.float
           (Sample.post [("name", "Mug"); ("price", "12.5")] (Some dots)))
        no_faults Shop.stock
  = ((JDict [("error", JStr "Failed to add product");
             ("details", JStrOf ValueError_blob_name)], 500), Shop.stock).
Proof.
  apply (add_product_unusable_file_name Werkzeug.secure_filename Py.float _ _ _
           {| filename := "../.."; stream := "PNG" |});
    vm_compute; reflexivity.
Defined.

(** X21: a failed select is reported by the view that made it.  With a
    query left after stripping, the search answers 500 "Failed to search
    products"; with none, the select is the listing's and the answer is
    500 "Failed to fetch products".  Either way nothing is changed. *)
Theorem search_products_select_failure
    (request : Request) (f : Faults) (w : World) (msg : string) :
  db_select_fault f = Some msg ->
  let query := Py.strip (default EmptyString (args request !! "q")) in
  let out := serve (search_products request) f w in
  fst out = (JDict [("error", JStr (if Py.truthy (Some query)
                                    then "Failed to search products"
                                    else "Failed to fetch products"));
                    ("details", JStrOf (DatabaseFailure msg))], 500)
  /\ db (world_after out) = db w
  /\ blob_service_client (world_after out) = blob_service_client w.
Proof.
  intros Hselect. unfold search_products, get_products. run_view.
  destruct (Py.strip _) as [|c q]; simpl; rewrite Hselect; simpl;
    repeat split; reflexivity.
Qed.

Lemma search_products_select_failure_witness :
  let down := {| storage_fault := None; db_select_fault := Some "timeout";
                 db_delete_fault := None; db_commit_fault := None |} in
  let out := serve (search_products (Sample.search (Some "poster"))) down Shop.stock in
  fst out = (JDict [("error", JStr "Failed to search products");
                    ("details", JStrOf (DatabaseFailure "timeout"))], 500)
  /\ db (world_after out) = db Shop.stock
  /\ blob_service_client (world_after out) = blob_service_client Shop.stock.
Proof.
  apply (search_products_select_failure (Sample.search (Some "poster"))
           {| storage_fault := None; db_select_fault := Some "timeout";
              db_delete_fault := None; db_commit_fault := None |} Shop.stock "timeout").
  reflexivity.
Defined.

(** ** Start-up *)

Lemma all_quoted_app (a b : string) :
  Urllib.all_quoted (a +:+ b) = Urllib.all_quoted a && Urllib.all_quoted b.
Proof.
  induction a as [|c a IH]; [reflexivity|].
  change (String c a +:+ b) with (String c (a +:+ b)). simpl.
  rewrite IH, andb_assoc. reflexivity.
Qed.

Lemma quote_char_all_quoted (c : ascii) : Urllib.all_quoted (Urllib.quote_char c) = true.
Proof. destruct c as [[] [] [] [] [] [] [] []]; reflexivity. Qed.

Lemma quote_plus_all_quoted (s : string) : Urllib.all_quoted (Urllib.quote_plus s) = true.
Proof.
  induction s as [|c s IH]; simpl; [reflexivity|].
  rewrite all_quoted_app, quote_char_all_quoted, IH. reflexivity.
Qed.

(** X22: whatever the password is, it cannot break the database URI.
    When both variables are set, the URI is [mssql+pyodbc:///?odbc_connect=]
    followed by text made only of letters, digits, [_.-~], [+] and [%]:
    no [&], [=], [#] or [?] of the password gets into it.  The
    configuration carries the password of the environment, and neither
    variable was empty. *)
Theorem database_uri_is_quoted (environ : gmap string string) (config : Boot.Config) :
  Boot.configure environ = inr config ->
  environ !! "DB_PASSWORD" = Some (Boot.DB_PASSWORD config)
  /\ Boot.DB_PASSWORD config <> EmptyString
  /\ Boot.AZURE_STORAGE_CONNECTION_STRING config <> EmptyString
  /\ exists params,
       Boot.SQLALCHEMY_DATABASE_URI config = "mssql+pyodbc:///?odbc_connect=" +:+ params
       /\ Urllib.all_quoted params = true.
Proof.
  unfold Boot.configure.
  destruct (environ !! "AZURE_STORAGE_CONNECTION_STRING") as [[|c1 s1]|];
    simpl; try discriminate.
  destruct (environ !! "DB_PASSWORD") as [[|c2 s2]|]; simpl; try discriminate.
  intros [= <-]. simpl.
  repeat split; try discriminate.
  eexists. split; [reflexivity|]. apply quote_plus_all_quoted.
Qed.

Lemma database_uri_is_quoted_witness :
  let config :=
    {| Boot.AZURE_STORAGE_CONNECTION_STRING := "AccountName=catalog;AccountKey=k";
       Boot.DB_PASSWORD := "p&ss w=rd;#1";
       Boot.SQLALCHEMY_DATABASE_URI :=
         "mssql+pyodbc:///?odbc_connect=" +:+ Boot.db_params "p&ss w=rd;#1" |} in
  Shop.environ !! "DB_PASSWORD" = Some (Boot.DB_PASSWORD config)
  /\ Boot.DB_PASSWORD config <> EmptyString
  /\ Boot.AZURE_STORAGE_CONNECTION_STRING config <> EmptyString
  /\ exists params,
       Boot.SQLALCHEMY_DATABASE_URI config
       = "mssql+pyodbc:///?odbc_connect=" +:+ params
       /\ Urllib.all_quoted params = true.
Proof.
  apply (database_uri_is_quoted Shop.environ). vm_compute. reflexivity.
Defined.
